(** * terraform-provider-temporal: the provider and its namespace resource

    A shallow embedding of [internal/provider/provider.go] and
    [internal/provider/namespace_resource.go].

    The Go handlers receive a request and a pointer to a response that they
    mutate; here every handler is a function from the request and the
    response on entry to the response on exit.  Side effects that leave the
    process (log lines, the gRPC dial, HTTP round trips) are recorded, in
    order, in a list of events that is threaded through the handlers.

    What belongs to the plugin framework and to the Go libraries (decoding a
    plan into a struct, storing a struct into the state, the process
    environment, dialling) is not part of the repository: it is taken as a
    parameter, packaged in the classes [Runtime] and [Tfsdk]. *)

From stdpp Require Import base decidable option list strings gmap.

(** ** Framework values: [types.String] *)

Module types.

(** A framework string is null, unknown (not yet resolved) or known. *)
Inductive String : Type :=
| StringNull
| StringUnknown
| StringValue (s : string).

Definition IsNull (v : String) : bool :=
  match v with StringNull => true | _ => false end.

Definition IsUnknown (v : String) : bool :=
  match v with StringUnknown => true | _ => false end.

(** [ValueString] is the empty string for a null or unknown value. *)
Definition ValueString (v : String) : string :=
  match v with StringValue s => s | _ => "" end.

#[global] Instance String_eq_dec : EqDecision String.
Proof. solve_decision. Defined.

(** The other framework values of the namespace: booleans, numbers and
    lists of strings, each null, unknown or known. *)
Inductive Bool : Type := BoolNull | BoolUnknown | BoolValue (b : bool).
Inductive Number : Type := NumberNull | NumberUnknown | NumberValue (n : Z).
Inductive List : Type := ListNull | ListUnknown | ListValue (elems : list string).

End types.

(** ** Attribute paths: [path.Path] *)

Module path.

Record Path : Type := { steps : list string }.

Definition Empty : Path := {| steps := [] |}.
Definition Root (name : string) : Path := {| steps := [name] |}.

#[global] Instance Path_eq_dec : EqDecision Path.
Proof. solve_decision. Defined.

Definition Equal (p q : Path) : bool := bool_decide (p = q).

End path.

(** ** Diagnostics: [diag.Diagnostics] *)

Module diag.

Inductive Severity : Type := SeverityError | SeverityWarning.

#[global] Instance Severity_eq_dec : EqDecision Severity.
Proof. solve_decision. Defined.

(** A diagnostic is attribute-scoped when it carries a path. *)
Record Diagnostic : Type := {
  severity : Severity;
  attribute : option path.Path;
  summary : string;
  detail : string
}.

#[global] Instance Diagnostic_eq_dec : EqDecision Diagnostic.
Proof. solve_decision. Defined.

Definition Diagnostics : Type := list Diagnostic.

Definition NewErrorDiagnostic (s d : string) : Diagnostic :=
  {| severity := SeverityError; attribute := None; summary := s; detail := d |}.

Definition NewAttributeErrorDiagnostic (p : path.Path) (s d : string) : Diagnostic :=
  {| severity := SeverityError; attribute := Some p; summary := s; detail := d |}.

Definition is_error (d : Diagnostic) : bool :=
  bool_decide (severity d = SeverityError).

Definition Contains (diags : Diagnostics) (d : Diagnostic) : bool :=
  bool_decide (d ∈ diags).

(** [Append] adds the diagnostics that are not already in the collection,
    in order, at its end. *)
Fixpoint Append (diags : Diagnostics) (new : list Diagnostic) : Diagnostics :=
  match new with
  | [] => diags
  | d :: rest => Append (if Contains diags d then diags else diags ++ [d]) rest
  end.

Definition AddError (diags : Diagnostics) (s d : string) : Diagnostics :=
  Append diags [NewErrorDiagnostic s d].

Definition AddAttributeError (diags : Diagnostics) (p : path.Path) (s d : string)
  : Diagnostics :=
  Append diags [NewAttributeErrorDiagnostic p s d].

Definition HasError (diags : Diagnostics) : bool := existsb is_error diags.

Definition Errors (diags : Diagnostics) : Diagnostics := List.filter is_error diags.

End diag.

(** ** The world outside the process *)

Inductive LogLevel : Type := LevelTrace | LevelDebug | LevelInfo.

Record http_Request : Type := { Method : string; URL : string; ReqBody : string }.
Record http_Response : Type := { StatusCode : nat; RespBody : string }.

(** One observable effect of a handler. *)
Inductive Event : Type :=
| LogEvent (level : LogLevel) (msg : string) (fields : list (string * string))
| DialEvent (endpoint : string)
| HttpDoEvent (req : http_Request).

Definition World : Type := list Event.

Definition is_remote_call (e : Event) : bool :=
  match e with HttpDoEvent _ => true | _ => false end.

Definition is_dial (e : Event) : bool :=
  match e with DialEvent _ => true | _ => false end.

(** The calls to the remote system found in a trace of events. *)
Definition remote_calls (w : World) : list Event := List.filter is_remote_call w.
Definition dials (w : World) : list Event := List.filter is_dial w.

(** [context.Context], as far as the logger reads it: the fields set on it. *)
Record Context : Type := { fields : list (string * string) }.

Module tflog.

Definition SetField (ctx : Context) (key value : string) : Context :=
  {| fields := fields ctx ++ [(key, value)] |}.

Definition log (level : LogLevel) (ctx : Context) (msg : string)
    (additional : list (string * string)) (w : World) : World :=
  w ++ [LogEvent level msg (fields ctx ++ additional)].

Definition Trace := log LevelTrace.
Definition Debug := log LevelDebug.
Definition Info := log LevelInfo.

End tflog.

(** [*http.Client]: what the remote answers to a request (a response, or a
    transport error). *)
Record http_Client : Type := { RoundTrip : http_Request → http_Response + string }.

Module http.

(** [client.Do(req)]: the one way a handler can reach the remote system. *)
Definition Do (c : http_Client) (req : http_Request) (w : World)
  : (http_Response + string) * World :=
  (RoundTrip c req, w ++ [HttpDoEvent req]).

End http.

Record grpc_ClientConn : Type := { target : string }.

(** A Go value of interface type [any], by its dynamic type.  [nil] is the
    nil interface; a pointer may itself be nil ([None]). *)
Inductive any : Type :=
| any_nil
| http_Client_ptr (c : option http_Client)
| grpc_ClientConn_ptr (c : option grpc_ClientConn)
| other (T : string).

(** The dynamic type as [fmt.Sprintf] prints it under the verb [%T]. *)
Definition type_name (v : any) : string :=
  match v with
  | any_nil => "<nil>"
  | http_Client_ptr _ => "*http.Client"
  | grpc_ClientConn_ptr _ => "*grpc.ClientConn"
  | other T => T
  end.

(** The line feed of a Go string literal. *)
Definition LF : string := String (Ascii.ascii_of_nat 10) EmptyString.

Module strings.

Fixpoint Join (elems : list string) (sep : string) : string :=
  match elems with
  | [] => ""
  | [s] => s
  | s :: rest => s +:+ sep +:+ Join rest sep
  end.

End strings.

(** ** provider.go *)

Record TemporalProvider : Type := { version : string }.

Record temporalProviderModel : Type := {
  Host : types.String;
  Port : types.String
}.

(** What the provider takes from outside the repository: the decoding of
    the configuration into [temporalProviderModel] ([req.Config.Get]), the
    process environment ([os.Getenv], empty for an unset variable) and the
    outcome of [grpc.Dial] (a connection or an error message). *)
Class Runtime (Config : Type) : Type := {
  Config_Get : Config → diag.Diagnostics * temporalProviderModel;
  os_Getenv : string → string;
  dial : string → grpc_ClientConn + string
}.

Module grpc.

Definition Dial `{Runtime C} (endpoint : string) (w : World)
  : (grpc_ClientConn + string) * World :=
  (dial endpoint, w ++ [DialEvent endpoint]).

End grpc.

Module provider.

Record MetadataResponse : Type := { TypeName : string; Version : string }.

Record SchemaAttribute : Type := { Required : bool }.
Record SchemaResponse : Type := { Attributes : gmap string SchemaAttribute }.

Record ConfigureRequest (C : Type) : Type := { Config : C }.
Arguments Config {C} _.

Record ConfigureResponse : Type := {
  Diagnostics : diag.Diagnostics;
  DataSourceData : any;
  ResourceData : any
}.

Definition with_Diagnostics (ds : diag.Diagnostics) (resp : ConfigureResponse)
  : ConfigureResponse :=
  {| Diagnostics := ds;
     DataSourceData := DataSourceData resp;
     ResourceData := ResourceData resp |}.

End provider.

Module TemporalProviderImpl.
Import provider.

Definition Metadata (p : TemporalProvider) : MetadataResponse :=
  {| TypeName := "temporal"; Version := version p |}.

Definition Schema (p : TemporalProvider) : SchemaResponse :=
  {| Attributes :=
       <["host" := {| Required := true |}]>
       (<["port" := {| Required := true |}]> ∅) |}.

(** [Configure]: decode the configuration, refuse unknown values, resolve
    host and port, refuse empty ones, dial, publish the connection. *)
Definition Configure `{Runtime C} (p : TemporalProvider) (ctx : Context)
    (req : ConfigureRequest C) (resp : ConfigureResponse) (w : World)
  : ConfigureResponse * World :=
  let w := tflog.Info ctx "Configuring Temporal client" [] w in
  let '(diags, config) := Config_Get (Config req) in
  let resp := with_Diagnostics (diag.Append (Diagnostics resp) diags) resp in
  if diag.HasError (Diagnostics resp) then (resp, w) else
  let resp :=
    if types.IsUnknown (Host config)
    then with_Diagnostics
           (diag.AddAttributeError (Diagnostics resp) (path.Root "host")
              "Unknown Tmeporal Frontend Host"
              ("The provider cannot create the Temporal API client as there is an unknown configuration value for the Temporal API host. "
              +:+ "Either target apply the source of the value first, set the value statically in the configuration, or use the TEMPORAL_HOST environment variable."))
           resp
    else resp in
  let resp :=
    if types.IsUnknown (Port config)
    then with_Diagnostics
           (diag.AddAttributeError (Diagnostics resp) (path.Root "port")
              "Unknown Temporal Frontend Port"
              ("The provider cannot create the Temporal API client as there is an unknown configuration value for the Temporal API port. "
              +:+ "Either target apply the source of the value first, set the value statically in the configuration, or use the TEMPORAL_PORT environment variable."))
           resp
    else resp in
  if diag.HasError (Diagnostics resp) then (resp, w) else
  let host := os_Getenv "TEMPORAL_HOST" in
  let port := os_Getenv "TEMPORAL_PORT" in
  let host := if negb (types.IsNull (Host config))
              then types.ValueString (Host config) else host in
  let port := if negb (types.IsNull (Port config))
              then types.ValueString (Port config) else port in
  let resp :=
    if bool_decide (host = "")
    then with_Diagnostics
           (diag.AddAttributeError (Diagnostics resp) (path.Root "host")
              "Missing Temporal Frontend Host"
              ("The provider cannot create the Temporal API client as there is a missing or empty value for the Temporal Frontend host. "
              +:+ "Set the host value in the configuration or use the TEMPORAL_HOST environment variable. "
              +:+ "If either is already set, ensure the value is not empty."))
           resp
    else resp in
  let resp :=
    if bool_decide (port = "")
    then with_Diagnostics
           (diag.AddAttributeError (Diagnostics resp) (path.Root "port")
              "Missing Temporal Frontend Port"
              ("The provider cannot create the Temporal API client as there is a missing or empty value for the Temporal Frontend port. "
              +:+ "Set the username value in the configuration or use the TEMPORAL_PORT environment variable. "
              +:+ "If either is already set, ensure the value is not empty."))
           resp
    else resp in
  if diag.HasError (Diagnostics resp) then (resp, w) else
  let ctx := tflog.SetField ctx "temporal_host" host in
  let ctx := tflog.SetField ctx "temporal_port" port in
  let w := tflog.Debug ctx "Creating Temporal client" [] w in
  let endpoint := strings.Join [host; port] ":" in
  let '(r, w) := grpc.Dial endpoint w in
  match r with
  | inr err =>
      (with_Diagnostics
         (diag.AddError (Diagnostics resp) "Unable to Create Temporal API Client"
            ("An unexpected error occurred when creating the Temporal API client. "
            +:+ "If the error is not clear, please contact the provider developers."
            +:+ LF +:+ LF
            +:+ "Temporal Client Error: " +:+ err))
         resp, w)
  | inl client =>
      let resp := {| Diagnostics := Diagnostics resp;
                     DataSourceData := grpc_ClientConn_ptr (Some client);
                     ResourceData := grpc_ClientConn_ptr (Some client) |} in
      let w := tflog.Info ctx "Configured Temporal client" [("success", "true")] w in
      (resp, w)
  end.

(** The diagnostics that [Configure] can add, by name. *)

Definition UnknownHost : diag.Diagnostic :=
  diag.NewAttributeErrorDiagnostic (path.Root "host")
    "Unknown Tmeporal Frontend Host"
    ("The provider cannot create the Temporal API client as there is an unknown configuration value for the Temporal API host. "
     +:+ "Either target apply the source of the value first, set the value statically in the configuration, or use the TEMPORAL_HOST environment variable.").

Definition UnknownPort : diag.Diagnostic :=
  diag.NewAttributeErrorDiagnostic (path.Root "port")
    "Unknown Temporal Frontend Port"
    ("The provider cannot create the Temporal API client as there is an unknown configuration value for the Temporal API port. "
     +:+ "Either target apply the source of the value first, set the value statically in the configuration, or use the TEMPORAL_PORT environment variable.").

Definition MissingHost : diag.Diagnostic :=
  diag.NewAttributeErrorDiagnostic (path.Root "host")
    "Missing Temporal Frontend Host"
    ("The provider cannot create the Temporal API client as there is a missing or empty value for the Temporal Frontend host. "
     +:+ "Set the host value in the configuration or use the TEMPORAL_HOST environment variable. "
     +:+ "If either is already set, ensure the value is not empty.").

Definition MissingPort : diag.Diagnostic :=
  diag.NewAttributeErrorDiagnostic (path.Root "port")
    "Missing Temporal Frontend Port"
    ("The provider cannot create the Temporal API client as there is a missing or empty value for the Temporal Frontend port. "
     +:+ "Set the username value in the configuration or use the TEMPORAL_PORT environment variable. "
     +:+ "If either is already set, ensure the value is not empty.").

Definition DialFailed (err : string) : diag.Diagnostic :=
  diag.NewErrorDiagnostic
    "Unable to Create Temporal API Client"
    ("An unexpected error occurred when creating the Temporal API client. "
     +:+ "If the error is not clear, please contact the provider developers."
     +:+ LF +:+ LF
     +:+ "Temporal Client Error: " +:+ err).

End TemporalProviderImpl.

(** ** namespace_resource.go *)

(** The resource: it holds the client it was configured with, if any. *)
Record NamespaceResource : Type := { client : option http_Client }.

Record NamespaceResourceModel : Type := {
  ConfigurableAttribute : types.String;
  Defaulted : types.String;
  NamespaceResourceModel_Id : types.String
}.

(** Modelled from the spec: the struct [ExampleResourceModel], into which
    the handlers decode plans and states, is used but not declared in the
    two source files.  Its fields are those of the specification's
    ResourceState (the inputs name, description and ownerEmail, and the
    remote-computed fields), which are also the twelve attributes that
    [Schema] declares.  The one field the handlers name is [Id]. *)
Record ExampleResourceModel : Type := {
  Name : types.String;
  Description : types.String;
  OwnerEmail : types.String;
  Id : types.String;
  NamespaceState : types.String;
  ActiveClusterName : types.String;
  Clusters : types.List;
  HistoryArchivalState : types.String;
  VisibilityArchivalState : types.String;
  IsGlobalNamespace : types.Bool;
  FailoverVersion : types.Number;
  FailoverHistory : types.List
}.

(** The assignment [data.Id = v]. *)
Definition with_Id (v : types.String) (data : ExampleResourceModel)
  : ExampleResourceModel :=
  {| Name := Name data;
     Description := Description data;
     OwnerEmail := OwnerEmail data;
     Id := v;
     NamespaceState := NamespaceState data;
     ActiveClusterName := ActiveClusterName data;
     Clusters := Clusters data;
     HistoryArchivalState := HistoryArchivalState data;
     VisibilityArchivalState := VisibilityArchivalState data;
     IsGlobalNamespace := IsGlobalNamespace data;
     FailoverVersion := FailoverVersion data;
     FailoverHistory := FailoverHistory data |}.

(** What the resource takes from the framework: decoding a plan or a state
    into the struct ([Get]), storing the struct into a state ([Set]) and
    writing one attribute of a state ([SetAttribute]).  Each returns the
    diagnostics of the conversion. *)
Class Tfsdk (Plan State : Type) : Type := {
  Plan_Get : Plan → diag.Diagnostics * ExampleResourceModel;
  State_Get : State → diag.Diagnostics * ExampleResourceModel;
  State_Set : ExampleResourceModel → State → diag.Diagnostics * State;
  State_SetAttribute : path.Path → string → State → diag.Diagnostics * State
}.

Module resource.

Record MetadataRequest : Type := { ProviderTypeName : string }.
Record MetadataResponse : Type := { TypeName : string }.

Inductive ElementType : Type := StringType.

Inductive AttributeKind : Type :=
| StringAttribute
| BoolAttribute
| NumberAttribute
| ListAttribute (elem : ElementType).

Record Attribute : Type := {
  Kind : AttributeKind;
  MarkdownDescription : string;
  Required : bool;
  Optional : bool;
  Computed : bool
}.

Record Schema : Type := {
  SchemaDescription : string;
  Attributes : gmap string Attribute
}.

Record ConfigureRequest : Type := { ProviderData : any }.
Record ConfigureResponse : Type := { ConfigureDiagnostics : diag.Diagnostics }.

Record CreateRequest (Pl : Type) : Type := { CreatePlan : Pl }.
Record ReadRequest (St : Type) : Type := { ReadState : St }.
Record UpdateRequest (Pl St : Type) : Type := { UpdatePlan : Pl; UpdateState : St }.
Record DeleteRequest (St : Type) : Type := { DeleteState : St }.
Record ImportStateRequest : Type := { ID : string }.
Arguments CreatePlan {Pl} _.
Arguments ReadState {St} _.
Arguments UpdatePlan {Pl St} _.
Arguments UpdateState {Pl St} _.
Arguments DeleteState {St} _.

(** The response of Create, Read, Update, Delete and ImportState: the
    diagnostics and the state the framework keeps afterwards. *)
Record Response (St : Type) : Type := {
  Diagnostics : diag.Diagnostics;
  State : St
}.
Arguments Diagnostics {St} _.
Arguments State {St} _.

Definition MissingAttributePath : diag.Diagnostic :=
  diag.NewErrorDiagnostic
    "Resource Import Passthrough Missing Attribute Path"
    "Resource ImportState method call to ImportStatePassthroughID path must be set to a valid attribute path that can accept a string value.".

(** The framework's pass-through import: write the import identifier at
    the given attribute of the state, nothing else. *)
Definition ImportStatePassthroughID `{Tfsdk Pl St} (attrPath : path.Path)
    (req : ImportStateRequest) (resp : Response St) : Response St :=
  let diags :=
    if path.Equal attrPath path.Empty
    then diag.Append (Diagnostics resp) [MissingAttributePath]
    else Diagnostics resp in
  let '(d, st) := State_SetAttribute attrPath (ID req) (State resp) in
  {| Diagnostics := diag.Append diags d; State := st |}.

End resource.

Module NamespaceResourceImpl.
Import resource.

Definition Metadata (r : NamespaceResource) (req : MetadataRequest)
  : MetadataResponse :=
  {| TypeName := ProviderTypeName req +:+ "_namespace" |}.

Definition computed (k : AttributeKind) (md : string) : Attribute :=
  {| Kind := k; MarkdownDescription := md;
     Required := false; Optional := false; Computed := true |}.

Definition Schema (r : NamespaceResource) : resource.Schema :=
  {| SchemaDescription := "Temporal Namespace resource";
     Attributes :=
       <["name" := {| Kind := StringAttribute;
                      MarkdownDescription := "Namespace name";
                      Required := true; Optional := false; Computed := false |}]>
       (<["id" := computed StringAttribute "Namespace identifier"]>
       (<["description" := {| Kind := StringAttribute;
                             MarkdownDescription := "Namespace Description";
                             Required := false; Optional := true; Computed := true |}]>
       (<["owner_email" := {| Kind := StringAttribute;
                             MarkdownDescription := "Namespace Owner Email";
                             Required := false; Optional := true; Computed := true |}]>
       (<["state" := computed StringAttribute "State of Namespace"]>
       (<["active_cluster_name" := computed StringAttribute "Active Cluster Name"]>
       (<["clusters" := computed (ListAttribute StringType) "Temporal Clusters"]>
       (<["history_archival_state" := computed StringAttribute "History Archival State"]>
       (<["visibility_archival_state" := computed StringAttribute "Visibility Archival State"]>
       (<["is_global_namespace" := computed BoolAttribute "Namespace is Global"]>
       (<["failover_version" := computed NumberAttribute "Failover Version"]>
       (<["failover_history" := computed (ListAttribute StringType) "Failover History"]>
        ∅))))))))))) |}.

(** [Configure]: keep the provider's client; nothing to do while the
    provider has not been configured. *)
Definition Configure (r : NamespaceResource) (req : ConfigureRequest)
    (resp : ConfigureResponse) : NamespaceResource * ConfigureResponse :=
  match ProviderData req with
  | any_nil => (r, resp)
  | http_Client_ptr c => ({| client := c |}, resp)
  | v =>
      (r, {| ConfigureDiagnostics :=
               diag.AddError (ConfigureDiagnostics resp)
                 "Unexpected Resource Configure Type"
                 ("Expected *http.Client, got: " +:+ type_name v
                  +:+ ". Please report this issue to the provider developers.") |})
  end.

(** The diagnostic that [Configure] adds for provider data of type [%T]. *)
Definition UnexpectedConfigureType (v : any) : diag.Diagnostic :=
  diag.NewErrorDiagnostic
    "Unexpected Resource Configure Type"
    ("Expected *http.Client, got: " +:+ type_name v
     +:+ ". Please report this issue to the provider developers.").

Section Handlers.
Context `{Tfsdk Pl St}.

Definition Create (r : NamespaceResource) (ctx : Context)
    (req : CreateRequest Pl) (resp : Response St) (w : World)
  : Response St * World :=
  let '(d, data) := Plan_Get (CreatePlan req) in
  let resp := {| Diagnostics := diag.Append (Diagnostics resp) d;
                 State := State resp |} in
  if diag.HasError (Diagnostics resp) then (resp, w) else
  let data := with_Id (types.StringValue "example-id") data in
  let w := tflog.Trace ctx "created a resource" [] w in
  let '(d, st) := State_Set data (State resp) in
  ({| Diagnostics := diag.Append (Diagnostics resp) d; State := st |}, w).

Definition Read (r : NamespaceResource) (ctx : Context)
    (req : ReadRequest St) (resp : Response St) (w : World)
  : Response St * World :=
  let '(d, data) := State_Get (ReadState req) in
  let resp := {| Diagnostics := diag.Append (Diagnostics resp) d;
                 State := State resp |} in
  if diag.HasError (Diagnostics resp) then (resp, w) else
  let '(d, st) := State_Set data (State resp) in
  ({| Diagnostics := diag.Append (Diagnostics resp) d; State := st |}, w).

Definition Update (r : NamespaceResource) (ctx : Context)
    (req : UpdateRequest Pl St) (resp : Response St) (w : World)
  : Response St * World :=
  let '(d, data) := Plan_Get (UpdatePlan req) in
  let resp := {| Diagnostics := diag.Append (Diagnostics resp) d;
                 State := State resp |} in
  if diag.HasError (Diagnostics resp) then (resp, w) else
  let '(d, st) := State_Set data (State resp) in
  ({| Diagnostics := diag.Append (Diagnostics resp) d; State := st |}, w).

Definition Delete (r : NamespaceResource) (ctx : Context)
    (req : DeleteRequest St) (resp : Response St) (w : World)
  : Response St * World :=
  let '(d, data) := State_Get (DeleteState req) in
  let resp := {| Diagnostics := diag.Append (Diagnostics resp) d;
                 State := State resp |} in
  if diag.HasError (Diagnostics resp) then (resp, w) else
  (resp, w).

Definition ImportState (r : NamespaceResource) (ctx : Context)
    (req : ImportStateRequest) (resp : Response St) (w : World)
  : Response St * World :=
  (ImportStatePassthroughID (path.Root "id") req resp, w).

End Handlers.

End NamespaceResourceImpl.

(** ** An in-memory framework, for concrete runs

    Plans and states that hold a decoded struct directly; [None] is a null
    plan or state, which does not convert into a struct. *)

Module Memory.

Definition ConversionError : diag.Diagnostic :=
  diag.NewErrorDiagnostic "Value Conversion Error"
    "Received null value, however the target type cannot handle null values.".

Definition InvalidPath : diag.Diagnostic :=
  diag.NewErrorDiagnostic "State Write Error" "The attribute path is not in the schema.".

(** The Go zero value of the struct: every field null. *)
Definition zero : ExampleResourceModel :=
  {| Name := types.StringNull;
     Description := types.StringNull;
     OwnerEmail := types.StringNull;
     Id := types.StringNull;
     NamespaceState := types.StringNull;
     ActiveClusterName := types.StringNull;
     Clusters := types.ListNull;
     HistoryArchivalState := types.StringNull;
     VisibilityArchivalState := types.StringNull;
     IsGlobalNamespace := types.BoolNull;
     FailoverVersion := types.NumberNull;
     FailoverHistory := types.ListNull |}.

Definition get (v : option ExampleResourceModel)
  : diag.Diagnostics * ExampleResourceModel :=
  match v with
  | Some m => ([], m)
  | None => ([ConversionError], zero)
  end.

Definition tfsdk
  : Tfsdk (option ExampleResourceModel) (option ExampleResourceModel) :=
  {| Plan_Get := get;
     State_Get := get;
     State_Set := λ m _, ([], Some m);
     State_SetAttribute := λ p v s,
       if path.Equal p (path.Root "id")
       then ([], Some (with_Id (types.StringValue v) (default zero s)))
       else ([InvalidPath], s) |}.

(** A runtime whose configuration is already decoded. *)
Definition runtime (env : string → string) (d : string → grpc_ClientConn + string)
  : Runtime temporalProviderModel :=
  {| Config_Get := λ c, ([], c); os_Getenv := env; dial := d |}.

Definition no_env : string → string := λ _, "".
Definition connect : string → grpc_ClientConn + string := λ e, inl {| target := e |}.

(** A remote that knows no namespace: every request is answered 404. *)
Definition not_found_client : http_Client :=
  {| RoundTrip := λ _, inl {| StatusCode := 404; RespBody := "namespace not found" |} |}.

(** A remote that refuses every request (403, not transient). *)
Definition rejecting_client : http_Client :=
  {| RoundTrip := λ _, inl {| StatusCode := 403; RespBody := "permission denied" |} |}.

(** A remote that holds the namespace as ns-123, Registered, at failover
    version 7, and answers every request with it. *)
Definition registering_client : http_Client :=
  {| RoundTrip := λ _,
       inl {| StatusCode := 200;
              RespBody := "id=ns-123 state=Registered failover_version=7" |} |}.

Definition background : Context := {| fields := [] |}.

Definition fresh : resource.Response (option ExampleResourceModel) :=
  {| resource.Diagnostics := []; resource.State := None |}.

(** The plan of the specification's Create scenario: the three inputs
    known, every computed field still unknown. *)
Definition billing : ExampleResourceModel :=
  {| Name := types.StringValue "billing";
     Description := types.StringValue "";
     OwnerEmail := types.StringValue "";
     Id := types.StringUnknown;
     NamespaceState := types.StringUnknown;
     ActiveClusterName := types.StringUnknown;
     Clusters := types.ListUnknown;
     HistoryArchivalState := types.StringUnknown;
     VisibilityArchivalState := types.StringUnknown;
     IsGlobalNamespace := types.BoolUnknown;
     FailoverVersion := types.NumberUnknown;
     FailoverHistory := types.ListUnknown |}.

End Memory.

(** ** The specification, for comparison *)

(** Following the specification's words: the explicit configuration value
    when one is set, otherwise the environment variable. *)
Definition spec_resolved (explicit : types.String) (fallback : string) : string :=
  match explicit with
  | types.StringValue s => s
  | _ => fallback
  end.

(** The diagnostics the specification asks for: one per empty setting. *)
Definition spec_missing (host port : string) : diag.Diagnostics :=
  (if decide (host = "") then [TemporalProviderImpl.MissingHost] else [])
  ++ (if decide (port = "") then [TemporalProviderImpl.MissingPort] else []).

Definition is_http_Client (v : any) : bool :=
  match v with http_Client_ptr _ => true | _ => false end.

Inductive Role : Type := RequiredInput | OptionalInput | ComputedOutput.

Definition role (a : resource.Attribute) : option Role :=
  match resource.Required a, resource.Optional a, resource.Computed a with
  | true, false, false => Some RequiredInput
  | false, true, _ => Some OptionalInput
  | false, false, true => Some ComputedOutput
  | _, _, _ => None
  end.

Definition declared (a : resource.Attribute) : option Role * resource.AttributeKind :=
  (role a, resource.Kind a).

Definition spec_schema : list (string * (option Role * resource.AttributeKind)) :=
  [ ("name", (Some RequiredInput, resource.StringAttribute));
    ("description", (Some OptionalInput, resource.StringAttribute));
    ("owner_email", (Some OptionalInput, resource.StringAttribute));
    ("id", (Some ComputedOutput, resource.StringAttribute));
    ("state", (Some ComputedOutput, resource.StringAttribute));
    ("active_cluster_name", (Some ComputedOutput, resource.StringAttribute));
    ("clusters", (Some ComputedOutput, resource.ListAttribute resource.StringType));
    ("history_archival_state", (Some ComputedOutput, resource.StringAttribute));
    ("visibility_archival_state", (Some ComputedOutput, resource.StringAttribute));
    ("is_global_namespace", (Some ComputedOutput, resource.BoolAttribute));
    ("failover_version", (Some ComputedOutput, resource.NumberAttribute));
    ("failover_history", (Some ComputedOutput, resource.ListAttribute resource.StringType)) ].

(** ** The specification's reconciler, as predicates over a run *)

(** Exactly one call reached the remote system during the run. *)
Definition one_remote_call (before after : World) : Prop :=
  length (remote_calls after) = S (length (remote_calls before)).

(** At least one call reached the remote system during the run. *)
Definition some_remote_call (before after : World) : Prop :=
  length (remote_calls before) < length (remote_calls after).

Definition Run : Type := resource.Response (option ExampleResourceModel) * World.

(** Create, in the specification: one remote Create call; the state holds
    the identifier the remote assigned, the state Registered and the name
    of the plan. *)
Definition spec_Create (remote_id : string) (plan : ExampleResourceModel)
    (before : World) (out : Run) : Prop :=
  one_remote_call before (snd out)
  ∧ ∃ m, resource.State (fst out) = Some m
         ∧ Id m = types.StringValue remote_id
         ∧ NamespaceState m = types.StringValue "Registered"
         ∧ Name m = Name plan.

(** Import of a resource the remote does not know, in the specification: the
    remote is read, an error is reported, no state is created. *)
Definition spec_Import_absent (before : World) (out : Run) : Prop :=
  some_remote_call before (snd out)
  ∧ diag.HasError (resource.Diagnostics (fst out)) = true
  ∧ resource.State (fst out) = None.


(** Successful Update, in the specification: the computed fields of the new
    state (here the identifier and the failover version) are those of the
    remote's answer. *)
Definition spec_Update_computed (remote_id : string) (remote_version : Z)
    (before : World) (out : Run) : Prop :=
  some_remote_call before (snd out)
  ∧ ∃ m, resource.State (fst out) = Some m
         ∧ Id m = types.StringValue remote_id
         ∧ FailoverVersion m = types.NumberValue remote_version.

Module Runs.
Import resource NamespaceResourceImpl Memory.

(** A stored state of the namespace billing, at failover version 3. *)
Definition registered : ExampleResourceModel :=
  {| Name := types.StringValue "billing";
     Description := types.StringValue "";
     OwnerEmail := types.StringValue "";
     Id := types.StringValue "example-id";
     NamespaceState := types.StringValue "Registered";
     ActiveClusterName := types.StringValue "active";
     Clusters := types.ListValue ["active"];
     HistoryArchivalState := types.StringValue "Disabled";
     VisibilityArchivalState := types.StringValue "Disabled";
     IsGlobalNamespace := types.BoolValue false;
     FailoverVersion := types.NumberValue 3;
     FailoverHistory := types.ListValue [] |}.

(** The plan of an update that changes the description only: the computed
    fields are those of the stored state. *)
Definition described : ExampleResourceModel :=
  {| Name := types.StringValue "billing";
     Description := types.StringValue "invoices";
     OwnerEmail := types.StringValue "";
     Id := types.StringValue "example-id";
     NamespaceState := types.StringValue "Registered";
     ActiveClusterName := types.StringValue "active";
     Clusters := types.ListValue ["active"];
     HistoryArchivalState := types.StringValue "Disabled";
     VisibilityArchivalState := types.StringValue "Disabled";
     IsGlobalNamespace := types.BoolValue false;
     FailoverVersion := types.NumberValue 3;
     FailoverHistory := types.ListValue [] |}.

Definition holding (m : ExampleResourceModel) : Response (option ExampleResourceModel) :=
  {| Diagnostics := []; State := Some m |}.

Definition create_billing : Run :=
  @Create _ _ tfsdk {| client := Some registering_client |} background
    {| CreatePlan := Some billing |} fresh [].

Definition import_absent : Run :=
  @ImportState _ _ tfsdk {| client := Some not_found_client |} background
    {| ID := "ns-123" |} fresh [].

Definition update_refused : Run :=
  @Update _ _ tfsdk {| client := Some rejecting_client |} background
    {| UpdatePlan := Some described; UpdateState := Some registered |}
    (holding registered) [].


Definition update_described : Run :=
  @Update _ _ tfsdk {| client := Some registering_client |} background
    {| UpdatePlan := Some described; UpdateState := Some registered |}
    (holding registered) [].

End Runs.

(** ** Construction and registration *)

(** [New]: the constructor that the plugin server calls to obtain the
    provider of a given version. *)
Definition New (version : string) : unit → TemporalProvider :=
  λ _, {| version := version |}.

(** [NewNamespaceResource]: a resource that no provider has configured yet;
    its client is the nil pointer. *)
Definition NewNamespaceResource : unit → NamespaceResource :=
  λ _, {| client := None |}.

(** [Resources]: the constructors of the resource types of the provider. *)
Definition Resources (p : TemporalProvider) : list (unit → NamespaceResource) :=
  [NewNamespaceResource].

(** The value that a configuration gives to an attribute of the provider,
    by the tfsdk tag of the field in [temporalProviderModel]. *)
Definition configured (name : string) (c : temporalProviderModel)
  : option types.String :=
  if decide (name = "host") then Some (Host c)
  else if decide (name = "port") then Some (Port c)
  else None.

(** A configuration gives a value (known or not yet known) to every
    attribute that a provider schema marks as required. *)
Definition gives_required (sch : provider.SchemaResponse) (c : temporalProviderModel)
  : Prop :=
  ∀ name a,
    provider.Attributes sch !! name = Some a →
    provider.Required a = true →
    ∃ v, configured name c = Some v ∧ types.IsNull v = false.

(** The events of a provider [Configure] that dials [host] and [port]: the
    two log lines before the dial and the dial. *)
Definition dialling (ctx : Context) (host port : string) : list Event :=
  [ LogEvent LevelInfo "Configuring Temporal client" (fields ctx);
    LogEvent LevelDebug "Creating Temporal client"
      (fields ctx ++ [("temporal_host", host); ("temporal_port", port)]);
    DialEvent (host +:+ ":" +:+ port) ].

(** The log line that ends a successful provider [Configure]. *)
Definition configured_line (ctx : Context) (host port : string) : Event :=
  LogEvent LevelInfo "Configured Temporal client"
    (fields ctx ++ [("temporal_host", host); ("temporal_port", port);
                    ("success", "true")]).

(** ** More concrete runs *)

Module Cases.

(** A runtime whose configuration does not decode. *)
Definition undecodable : Runtime unit :=
  {| Config_Get := λ _, ([Memory.ConversionError],
                         {| Host := types.StringNull; Port := types.StringNull |});
     os_Getenv := Memory.no_env;
     dial := Memory.connect |}.

(** A runtime in which no endpoint can be dialled. *)
Definition unreachable : Runtime temporalProviderModel :=
  Memory.runtime Memory.no_env (λ _, inr "connection refused").

(** An environment that names localhost and port 7233. *)
Definition local_env : string → string :=
  λ name, if decide (name = "TEMPORAL_HOST") then "localhost" else "7233".

Definition local_config : temporalProviderModel :=
  {| Host := types.StringValue "localhost"; Port := types.StringValue "7233" |}.

Definition null_config : temporalProviderModel :=
  {| Host := types.StringNull; Port := types.StringNull |}.

Definition unset : provider.ConfigureResponse :=
  {| provider.Diagnostics := [];
     provider.DataSourceData := any_nil;
     provider.ResourceData := any_nil |}.



(** The plan of a second namespace. *)
Definition payments : ExampleResourceModel :=
  {| Name := types.StringValue "payments";
     Description := types.StringValue "card payments";
     OwnerEmail := types.StringValue "";
     Id := types.StringUnknown;
     NamespaceState := types.StringUnknown;
     ActiveClusterName := types.StringUnknown;
     Clusters := types.ListUnknown;
     HistoryArchivalState := types.StringUnknown;
     VisibilityArchivalState := types.StringUnknown;
     IsGlobalNamespace := types.BoolUnknown;
     FailoverVersion := types.NumberUnknown;
     FailoverHistory := types.ListUnknown |}.

End Cases.

(** * Properties *)

(** ** Diagnostics *)

Section DiagFacts.
Import diag.

Lemma HasError_snoc (ds : Diagnostics) (d : Diagnostic) :
  HasError (ds ++ [d]) = HasError ds || is_error d.
Proof.
  unfold HasError. rewrite existsb_app. simpl. by rewrite orb_false_r.
Qed.

Lemma HasError_elem (ds : Diagnostics) (d : Diagnostic) :
  d ∈ ds → is_error d = true → HasError ds = true.
Proof.
  intros Hin He. unfold HasError. apply existsb_exists.
  exists d. split; [by apply list_elem_of_In | done].
Qed.

(** Appending never loses an error and adds only those it is given. *)
Lemma HasError_Append (new ds : Diagnostics) :
  HasError (Append ds new) = HasError ds || HasError new.
Proof.
  revert ds. induction new as [|d new IH]; intros ds; simpl.
  - by rewrite orb_false_r.
  - rewrite IH. unfold Contains. case_bool_decide as Hin.
    + destruct (is_error d) eqn:He; simpl.
      * rewrite (HasError_elem ds d Hin He). done.
      * done.
    + rewrite HasError_snoc. by rewrite orb_assoc.
Qed.

(** An error is new to a collection that holds no error. *)
Lemma Append_error_fresh (ds : Diagnostics) (d : Diagnostic) :
  HasError ds = false → is_error d = true → Append ds [d] = ds ++ [d].
Proof.
  intros Hno He. simpl. unfold Contains. case_bool_decide as Hin; [|done].
  rewrite (HasError_elem ds d Hin He) in Hno. done.
Qed.

Lemma Append_fresh (ds : Diagnostics) (d : Diagnostic) :
  d ∉ ds → Append ds [d] = ds ++ [d].
Proof.
  intros Hin. simpl. unfold Contains. by rewrite bool_decide_eq_false_2.
Qed.

Lemma Append_nil (ds : Diagnostics) : Append ds [] = ds.
Proof. done. Qed.

End DiagFacts.

(** ** Events *)

Lemma remote_calls_log (w : World) (l : LogLevel) (ctx : Context) (msg : string)
    (extra : list (string * string)) :
  remote_calls (tflog.log l ctx msg extra w) = remote_calls w.
Proof.
  unfold remote_calls, tflog.log. rewrite List.filter_app. simpl.
  by rewrite app_nil_r.
Qed.

Lemma dials_log (w : World) (l : LogLevel) (ctx : Context) (msg : string)
    (extra : list (string * string)) :
  dials (tflog.log l ctx msg extra w) = dials w.
Proof.
  unfold dials, tflog.log. rewrite List.filter_app. simpl.
  by rewrite app_nil_r.
Qed.

(** ** The provider's Configure *)

Section ProviderConfigure.
Import provider TemporalProviderImpl.
Context `{Runtime C}.

Lemma configure_errors_are_errors :
  diag.is_error UnknownHost = true ∧ diag.is_error UnknownPort = true
  ∧ diag.is_error MissingHost = true ∧ diag.is_error MissingPort = true.
Proof. by repeat split. Qed.

Lemma Info_first (ctx : Context) (w : World) :
  tflog.Info ctx "Configuring Temporal client" [] w
  = w ++ [LogEvent LevelInfo "Configuring Temporal client" (fields ctx)].
Proof. unfold tflog.Info, tflog.log. by rewrite app_nil_r. Qed.

#[local] Arguments diag.Append : simpl never.
#[local] Arguments diag.HasError : simpl never.

Lemma not_in_ok (D : diag.Diagnostics) (d : diag.Diagnostic) :
  diag.HasError D = false → diag.is_error d = true → d ∉ D.
Proof. intros Hok He Hin. by rewrite (HasError_elem _ _ Hin He) in Hok. Qed.

Lemma dials_snoc_log (w : World) (l : LogLevel) (m : string)
    (fs : list (string * string)) :
  dials (w ++ [LogEvent l m fs]) = dials w.
Proof. unfold dials. rewrite List.filter_app. simpl. by rewrite app_nil_r. Qed.

Ltac stopped :=
  repeat split;
  first [ done
        | apply dials_snoc_log
        | rewrite ?app_assoc, !HasError_snoc; simpl; by rewrite ?orb_true_r ].

(** C7. A configuration whose host or port is unknown is not executed
    against: [Configure] adds one attribute-scoped error for each unknown
    attribute (at [host], at [port]; different from each other and from
    the errors for a missing value) and returns at once.  It has then
    only written its first log line: nothing was dialled, and no client
    is published in the response. *)
Theorem Configure_unknown_needs_resolution
    (p : TemporalProvider) (ctx : Context) (req : ConfigureRequest C)
    (resp : ConfigureResponse) (w : World)
    (ds : diag.Diagnostics) (config : temporalProviderModel) :
  Config_Get (Config req) = (ds, config) →
  diag.HasError (diag.Append (Diagnostics resp) ds) = false →
  types.IsUnknown (Host config) = true ∨ types.IsUnknown (Port config) = true →
  Configure p ctx req resp w
  = (with_Diagnostics
       (diag.Append (Diagnostics resp) ds
        ++ (if types.IsUnknown (Host config) then [UnknownHost] else [])
        ++ (if types.IsUnknown (Port config) then [UnknownPort] else []))
       resp,
     w ++ [LogEvent LevelInfo "Configuring Temporal client" (fields ctx)])
  ∧ diag.HasError (Diagnostics (fst (Configure p ctx req resp w))) = true
  ∧ dials (snd (Configure p ctx req resp w)) = dials w
  ∧ DataSourceData (fst (Configure p ctx req resp w)) = DataSourceData resp
  ∧ ResourceData (fst (Configure p ctx req resp w)) = ResourceData resp
  ∧ diag.attribute UnknownHost = Some (path.Root "host")
  ∧ diag.attribute UnknownPort = Some (path.Root "port")
  ∧ UnknownHost ≠ UnknownPort
  ∧ UnknownHost ≠ MissingHost ∧ UnknownPort ≠ MissingPort.
Proof.
  intros Hget Hok Hunk.
  assert (Configure p ctx req resp w
          = (with_Diagnostics
               (diag.Append (Diagnostics resp) ds
                ++ (if types.IsUnknown (Host config) then [UnknownHost] else [])
                ++ (if types.IsUnknown (Port config) then [UnknownPort] else []))
               resp,
             w ++ [LogEvent LevelInfo "Configuring Temporal client" (fields ctx)]))
    as Heq.
  { unfold Configure, diag.AddAttributeError, diag.AddError.
    fold UnknownHost UnknownPort MissingHost MissingPort.
    rewrite Hget, Info_first. simpl. rewrite Hok.
    destruct (types.IsUnknown (Host config)) eqn:Hh;
      destruct (types.IsUnknown (Port config)) eqn:Hp; simpl.
    - rewrite (Append_error_fresh _ UnknownHost Hok eq_refl).
      rewrite (Append_fresh _ UnknownPort).
      2:{ intros Hin. apply elem_of_app in Hin as [Hin|Hin].
          - by apply (not_in_ok _ UnknownPort Hok).
          - apply list_elem_of_singleton in Hin. discriminate Hin. }
      rewrite !HasError_snoc. simpl. rewrite orb_true_r.
      unfold with_Diagnostics. simpl. by rewrite <- app_assoc.
    - rewrite (Append_error_fresh _ UnknownHost Hok eq_refl).
      rewrite HasError_snoc. simpl. rewrite orb_true_r.
      by unfold with_Diagnostics.
    - rewrite (Append_error_fresh _ UnknownPort Hok eq_refl).
      rewrite HasError_snoc. simpl. rewrite orb_true_r.
      by unfold with_Diagnostics.
    - destruct Hunk; discriminate. }
  rewrite Heq. simpl. repeat split; try done.
  - unfold diag.HasError. rewrite !existsb_app.
    destruct Hunk as [-> | ->]; simpl; by rewrite ?orb_true_r.
  - apply dials_snoc_log.
Qed.

(** C2. Once the configuration is decoded and holds no unknown value,
    [Configure] takes host and port from the configuration when set
    (not null) and from TEMPORAL_HOST / TEMPORAL_PORT otherwise.  If
    either is then empty it fails: it adds exactly the attribute-scoped
    errors of the empty settings ([MissingHost] at [host], [MissingPort]
    at [port]) and stops before dialling.  If neither is empty it dials
    the resolved host and port, and reports neither as missing. *)
Theorem Configure_resolves_host_and_port
    (p : TemporalProvider) (ctx : Context) (req : ConfigureRequest C)
    (resp : ConfigureResponse) (w : World)
    (ds : diag.Diagnostics) (config : temporalProviderModel) :
  Config_Get (Config req) = (ds, config) →
  diag.HasError (diag.Append (Diagnostics resp) ds) = false →
  types.IsUnknown (Host config) = false →
  types.IsUnknown (Port config) = false →
  ∀ host port : string,
  host = spec_resolved (Host config) (os_Getenv "TEMPORAL_HOST") →
  port = spec_resolved (Port config) (os_Getenv "TEMPORAL_PORT") →
  (host = "" ∨ port = "" →
     Configure p ctx req resp w
     = (with_Diagnostics
          (diag.Append (Diagnostics resp) ds ++ spec_missing host port) resp,
        w ++ [LogEvent LevelInfo "Configuring Temporal client" (fields ctx)])
     ∧ diag.HasError (Diagnostics (fst (Configure p ctx req resp w))) = true
     ∧ dials (snd (Configure p ctx req resp w)) = dials w)
  ∧ (host ≠ "" → port ≠ "" →
     (dials (snd (Configure p ctx req resp w))
      = dials w ++ [DialEvent (host +:+ ":" +:+ port)])
     ∧ (MissingHost ∉ Diagnostics (fst (Configure p ctx req resp w)))
     ∧ (MissingPort ∉ Diagnostics (fst (Configure p ctx req resp w))))
  ∧ diag.attribute MissingHost = Some (path.Root "host")
  ∧ diag.attribute MissingPort = Some (path.Root "port").
Proof.
  intros Hget Hok Hh Hp host port Hhost Hport.
  assert (Hhost' : (if negb (types.IsNull (Host config))
                    then types.ValueString (Host config)
                    else os_Getenv "TEMPORAL_HOST") = host).
  { subst host. by destruct (Host config). }
  assert (Hport' : (if negb (types.IsNull (Port config))
                    then types.ValueString (Port config)
                    else os_Getenv "TEMPORAL_PORT") = port).
  { subst port. by destruct (Port config). }
  clear Hhost Hport.
  unfold Configure, diag.AddAttributeError, diag.AddError.
  fold UnknownHost UnknownPort MissingHost MissingPort.
  rewrite Hget, Info_first. simpl.
  rewrite Hok, Hh, Hp. simpl. rewrite Hok, Hhost', Hport'.
  unfold spec_missing.
  split; [|split; [|done]].
  - intros Hempty.
    destruct (decide (host = "")) as [Eh|Eh];
      destruct (decide (port = "")) as [Ep|Ep];
      rewrite ?(bool_decide_eq_true_2 _ Eh), ?(bool_decide_eq_false_2 _ Eh),
              ?(bool_decide_eq_true_2 _ Ep), ?(bool_decide_eq_false_2 _ Ep);
      simpl.
    + rewrite (Append_error_fresh _ MissingHost Hok eq_refl).
      rewrite (Append_fresh _ MissingPort).
      2:{ intros Hin. apply elem_of_app in Hin as [Hin|Hin].
          - by apply (not_in_ok _ MissingPort Hok).
          - apply list_elem_of_singleton in Hin. discriminate Hin. }
      rewrite !HasError_snoc. simpl. rewrite orb_true_r. simpl.
      unfold with_Diagnostics. simpl. rewrite <- app_assoc. stopped.
    + rewrite (Append_error_fresh _ MissingHost Hok eq_refl).
      rewrite HasError_snoc. simpl. rewrite orb_true_r. simpl.
      unfold with_Diagnostics. simpl. stopped.
    + rewrite (Append_error_fresh _ MissingPort Hok eq_refl).
      rewrite HasError_snoc. simpl. rewrite orb_true_r. simpl.
      unfold with_Diagnostics. simpl. stopped.
    + destruct Hempty; done.
  - intros Eh Ep.
    rewrite (bool_decide_eq_false_2 _ Eh), (bool_decide_eq_false_2 _ Ep).
    simpl. rewrite Hok.
    destruct (dial (host +:+ ":" +:+ port)) as [conn|err]; simpl.
    + unfold tflog.Info, tflog.Debug. rewrite dials_log.
      unfold dials at 1. rewrite List.filter_app. simpl.
      fold (dials (tflog.log LevelDebug
                     (tflog.SetField (tflog.SetField ctx "temporal_host" host)
                        "temporal_port" port)
                     "Creating Temporal client" []
                     (w ++ [LogEvent LevelInfo "Configuring Temporal client" (fields ctx)]))).
      rewrite dials_log, dials_snoc_log.
      repeat split; try done; by apply not_in_ok.
    + unfold tflog.Debug.
      unfold dials at 1. rewrite List.filter_app. simpl.
      fold (dials (tflog.log LevelDebug
                     (tflog.SetField (tflog.SetField ctx "temporal_host" host)
                        "temporal_port" port)
                     "Creating Temporal client" []
                     (w ++ [LogEvent LevelInfo "Configuring Temporal client" (fields ctx)]))).
      rewrite dials_log, dials_snoc_log.
      split; [done|].
      change (diag.NewErrorDiagnostic _ _) with (DialFailed err).
      rewrite (Append_error_fresh _ (DialFailed err) Hok eq_refl).
      split; intros Hin; apply elem_of_app in Hin as [Hin|Hin];
        try (by eapply not_in_ok; [exact Hok| |exact Hin]);
        apply list_elem_of_singleton in Hin; discriminate Hin.
Qed.

End ProviderConfigure.

(** The scenario of the specification: host set to the empty string, port
    set to 7233, nothing in the environment. *)
Lemma Configure_empty_host_scenario :
  provider.Diagnostics
    (fst (@TemporalProviderImpl.Configure _
            (Memory.runtime Memory.no_env Memory.connect)
            {| version := "test" |} Memory.background
            {| provider.Config :=
                 {| Host := types.StringValue ""; Port := types.StringValue "7233" |} |}
            {| provider.Diagnostics := [];
               provider.DataSourceData := any_nil;
               provider.ResourceData := any_nil |} []))
  = [TemporalProviderImpl.MissingHost].
Proof.
  destruct (@Configure_resolves_host_and_port _
              (Memory.runtime Memory.no_env Memory.connect)
              {| version := "test" |} Memory.background
              {| provider.Config :=
                   {| Host := types.StringValue ""; Port := types.StringValue "7233" |} |}
              {| provider.Diagnostics := [];
                 provider.DataSourceData := any_nil;
                 provider.ResourceData := any_nil |} []
              [] {| Host := types.StringValue ""; Port := types.StringValue "7233" |}
              eq_refl eq_refl eq_refl eq_refl "" "7233" eq_refl eq_refl)
    as [Hstop _].
  destruct (Hstop (or_introl eq_refl)) as [Heq _].
  rewrite Heq. reflexivity.
Defined.

(** A configuration whose host is still unknown, port set. *)
Lemma Configure_unknown_host_scenario :
  provider.Diagnostics
    (fst (@TemporalProviderImpl.Configure _
            (Memory.runtime Memory.no_env Memory.connect)
            {| version := "test" |} Memory.background
            {| provider.Config :=
                 {| Host := types.StringUnknown; Port := types.StringValue "7233" |} |}
            {| provider.Diagnostics := [];
               provider.DataSourceData := any_nil;
               provider.ResourceData := any_nil |} []))
  = [TemporalProviderImpl.UnknownHost]
  ∧ dials
      (snd (@TemporalProviderImpl.Configure _
              (Memory.runtime Memory.no_env Memory.connect)
              {| version := "test" |} Memory.background
              {| provider.Config :=
                   {| Host := types.StringUnknown; Port := types.StringValue "7233" |} |}
              {| provider.Diagnostics := [];
                 provider.DataSourceData := any_nil;
                 provider.ResourceData := any_nil |} []))
    = [].
Proof.
  destruct (@Configure_unknown_needs_resolution _
              (Memory.runtime Memory.no_env Memory.connect)
              {| version := "test" |} Memory.background
              {| provider.Config :=
                   {| Host := types.StringUnknown; Port := types.StringValue "7233" |} |}
              {| provider.Diagnostics := [];
                 provider.DataSourceData := any_nil;
                 provider.ResourceData := any_nil |} []
              [] {| Host := types.StringUnknown; Port := types.StringValue "7233" |}
              eq_refl eq_refl (or_introl eq_refl))
    as (Heq & _ & Hd & _).
  split; [rewrite Heq; reflexivity | exact Hd].
Defined.

(** ** The namespace resource *)

Section ResourceHandlers.
Import resource NamespaceResourceImpl.
Context `{Tfsdk Pl St}.

#[local] Arguments diag.Append : simpl never.
#[local] Arguments diag.HasError : simpl never.

(** C1, as the code has it.  When the plan decodes without error, Create
    issues no remote call: its one effect is a trace log line.  The data
    it stores is the decoded plan with [Id] set to the constant
    ["example-id"] and every other field as in the plan: the name is
    preserved, and the namespace state is the plan's, not assigned. *)
Theorem Create_stores_plan_with_constant_id
    (r : NamespaceResource) (ctx : Context) (req : CreateRequest Pl)
    (resp : Response St) (w : World)
    (d : diag.Diagnostics) (data : ExampleResourceModel) :
  Plan_Get (CreatePlan req) = (d, data) →
  diag.HasError (diag.Append (Diagnostics resp) d) = false →
  ∀ stored : ExampleResourceModel,
  stored = with_Id (types.StringValue "example-id") data →
  Create r ctx req resp w
  = ({| Diagnostics :=
          diag.Append (diag.Append (Diagnostics resp) d)
            (fst (State_Set stored (State resp)));
        State := snd (State_Set stored (State resp)) |},
     w ++ [LogEvent LevelTrace "created a resource" (fields ctx)])
  ∧ remote_calls (snd (Create r ctx req resp w)) = remote_calls w
  ∧ Id stored = types.StringValue "example-id"
  ∧ Name stored = Name data
  ∧ NamespaceState stored = NamespaceState data
  ∧ with_Id (Id data) stored = data.
Proof.
  intros Hget Hok stored ->.
  assert (Create r ctx req resp w
          = ({| Diagnostics :=
                  diag.Append (diag.Append (Diagnostics resp) d)
                    (fst (State_Set (with_Id (types.StringValue "example-id") data)
                            (State resp)));
                State := snd (State_Set (with_Id (types.StringValue "example-id") data)
                                (State resp)) |},
             w ++ [LogEvent LevelTrace "created a resource" (fields ctx)])) as Heq.
  { unfold Create. rewrite Hget. simpl. rewrite Hok.
    destruct (State_Set _ _) as [d' st]. simpl.
    unfold tflog.Trace, tflog.log. by rewrite app_nil_r. }
  rewrite Heq. simpl. repeat split.
  - unfold remote_calls. rewrite List.filter_app. simpl. by rewrite app_nil_r.
  - by destruct data.
Qed.

(** C10. When the prior state decodes without error, Read hands the
    decoded data, as it is, to the state of the response, and has no
    effect outside: no log line, no remote call.  Under a framework that
    gives back what was stored, the new state decodes to the prior
    state's data, field for field. *)
Theorem Read_writes_back_prior_state
    (r : NamespaceResource) (ctx : Context) (req : ReadRequest St)
    (resp : Response St) (w : World)
    (d : diag.Diagnostics) (data : ExampleResourceModel) :
  State_Get (ReadState req) = (d, data) →
  diag.HasError (diag.Append (Diagnostics resp) d) = false →
  Read r ctx req resp w
  = ({| Diagnostics :=
          diag.Append (diag.Append (Diagnostics resp) d)
            (fst (State_Set data (State resp)));
        State := snd (State_Set data (State resp)) |},
     w)
  ∧ remote_calls (snd (Read r ctx req resp w)) = remote_calls w
  ∧ ((∀ m s, snd (State_Get (snd (State_Set m s))) = m) →
     snd (State_Get (State (fst (Read r ctx req resp w)))) = data).
Proof.
  intros Hget Hok.
  assert (Read r ctx req resp w
          = ({| Diagnostics :=
                  diag.Append (diag.Append (Diagnostics resp) d)
                    (fst (State_Set data (State resp)));
                State := snd (State_Set data (State resp)) |},
             w)) as Heq.
  { unfold Read. rewrite Hget. simpl. rewrite Hok.
    by destruct (State_Set _ _) as [d' st]. }
  rewrite Heq. simpl. split; [done|]. split; [done|].
  intros Hlaw. by rewrite Hlaw.
Qed.

(** An Update that fails before writing (the plan does not decode without
    error) returns with the state of the response as it was on entry, and
    with the error among the diagnostics. *)
Theorem Update_failure_keeps_state
    (r : NamespaceResource) (ctx : Context) (req : UpdateRequest Pl St)
    (resp : Response St) (w : World) :
  diag.HasError (diag.Append (Diagnostics resp) (fst (Plan_Get (UpdatePlan req))))
  = true →
  State (fst (Update r ctx req resp w)) = State resp
  ∧ diag.HasError (Diagnostics (fst (Update r ctx req resp w))) = true
  ∧ snd (Update r ctx req resp w) = w.
Proof.
  intros Herr. unfold Update.
  destruct (Plan_Get (UpdatePlan req)) as [d data]. simpl in *.
  by rewrite Herr.
Qed.


(** C5, as the code has it.  In a successful Update the data stored is
    the decoded plan as a whole, the computed [Id] included: it is handed
    unchanged to the state.  No remote call is issued, and the outcome is
    the same for every client and every prior state in the request. *)
Theorem Update_stores_plan
    (r : NamespaceResource) (ctx : Context) (req : UpdateRequest Pl St)
    (resp : Response St) (w : World)
    (d : diag.Diagnostics) (data : ExampleResourceModel) :
  Plan_Get (UpdatePlan req) = (d, data) →
  diag.HasError (diag.Append (Diagnostics resp) d) = false →
  Update r ctx req resp w
  = ({| Diagnostics :=
          diag.Append (diag.Append (Diagnostics resp) d)
            (fst (State_Set data (State resp)));
        State := snd (State_Set data (State resp)) |},
     w)
  ∧ remote_calls (snd (Update r ctx req resp w)) = remote_calls w
  ∧ ∀ (r' : NamespaceResource) (prior : St),
      Update r' ctx {| UpdatePlan := UpdatePlan req; UpdateState := prior |} resp w
      = Update r ctx req resp w.
Proof.
  intros Hget Hok.
  assert (∀ r0 prior,
            Update r0 ctx {| UpdatePlan := UpdatePlan req; UpdateState := prior |} resp w
            = ({| Diagnostics :=
                    diag.Append (diag.Append (Diagnostics resp) d)
                      (fst (State_Set data (State resp)));
                  State := snd (State_Set data (State resp)) |},
               w)) as Heq.
  { intros r0 prior. unfold Update. simpl. rewrite Hget. simpl. rewrite Hok.
    by destruct (State_Set _ _) as [d' st]. }
  assert (Update r ctx req resp w
          = ({| Diagnostics :=
                  diag.Append (diag.Append (Diagnostics resp) d)
                    (fst (State_Set data (State resp)));
                State := snd (State_Set data (State resp)) |},
             w)) as Heq0.
  { rewrite <- (Heq r (UpdateState req)). by destruct req. }
  split; [done|]. split; [by rewrite Heq0|].
  intros r' prior. by rewrite Heq, Heq0.
Qed.


(** C3, as the code has it.  ImportState is the framework's pass-through
    of the identifier: it writes the import identifier at the attribute
    [id] of the state and adds the diagnostics of that write, nothing
    more.  It issues no remote call and has no diagnostic of its own. *)
Theorem ImportState_passes_identifier_through
    (r : NamespaceResource) (ctx : Context) (req : ImportStateRequest)
    (resp : Response St) (w : World) :
  ImportState r ctx req resp w
  = ({| Diagnostics :=
          diag.Append (Diagnostics resp)
            (fst (State_SetAttribute (path.Root "id") (ID req) (State resp)));
        State := snd (State_SetAttribute (path.Root "id") (ID req) (State resp)) |},
     w)
  ∧ remote_calls (snd (ImportState r ctx req resp w)) = remote_calls w.
Proof.
  unfold ImportState, ImportStatePassthroughID. simpl.
  by destruct (State_SetAttribute _ _ _) as [d st].
Qed.

End ResourceHandlers.

(** C8. The schema of the namespace resource declares exactly the twelve
    attributes of the specification, each with its role and type: [name]
    a required string; [description] and [owner_email] optional strings;
    the other nine computed only, of the types listed. *)
Theorem Schema_declares_exactly (r : NamespaceResource) :
  declared <$> resource.Attributes (NamespaceResourceImpl.Schema r)
  = list_to_map spec_schema
  ∧ size (resource.Attributes (NamespaceResourceImpl.Schema r)) = 12.
Proof. split; vm_compute; reflexivity. Qed.

(** C9. Without provider data (a nil interface) the resource's Configure
    returns at once: no diagnostic, the client as it was.  With provider
    data of any other type than [*http.Client] it adds one error (the
    unexpected-type diagnostic, when not yet reported) and leaves the
    client as it was. *)
Theorem Resource_Configure_guards_provider_data
    (r : NamespaceResource) (resp : resource.ConfigureResponse) :
  NamespaceResourceImpl.Configure r {| resource.ProviderData := any_nil |} resp
  = (r, resp)
  ∧ ∀ v : any,
      v ≠ any_nil → is_http_Client v = false →
      NamespaceResourceImpl.UnexpectedConfigureType v
        ∉ resource.ConfigureDiagnostics resp →
      NamespaceResourceImpl.Configure r {| resource.ProviderData := v |} resp
      = (r, {| resource.ConfigureDiagnostics :=
                 resource.ConfigureDiagnostics resp
                 ++ [NamespaceResourceImpl.UnexpectedConfigureType v] |})
      ∧ diag.is_error (NamespaceResourceImpl.UnexpectedConfigureType v) = true
      ∧ length (diag.Errors
                  (resource.ConfigureDiagnostics
                     (snd (NamespaceResourceImpl.Configure r
                             {| resource.ProviderData := v |} resp))))
        = S (length (diag.Errors (resource.ConfigureDiagnostics resp))).
Proof.
  split; [done|].
  intros v Hnil Hty Hnew.
  assert (NamespaceResourceImpl.Configure r {| resource.ProviderData := v |} resp
          = (r, {| resource.ConfigureDiagnostics :=
                     resource.ConfigureDiagnostics resp
                     ++ [NamespaceResourceImpl.UnexpectedConfigureType v] |})) as Heq.
  { unfold NamespaceResourceImpl.Configure, diag.AddError.
    cbn [resource.ProviderData].
    destruct v; try done;
      match goal with
      | |- context [diag.NewErrorDiagnostic _ (_ +:+ type_name ?x +:+ _)] =>
          change (diag.NewErrorDiagnostic _ _)
            with (NamespaceResourceImpl.UnexpectedConfigureType x)
      end;
      by rewrite (Append_fresh _ _ Hnew). }
  rewrite Heq. simpl. repeat split.
  unfold diag.Errors. rewrite List.filter_app, length_app. simpl. lia.
Qed.

(** What the provider publishes, a [*grpc.ClientConn], is such a value. *)
Lemma Resource_Configure_with_grpc_connection :
  NamespaceResourceImpl.Configure {| client := None |}
    {| resource.ProviderData :=
         grpc_ClientConn_ptr (Some {| target := "localhost:7233" |}) |}
    {| resource.ConfigureDiagnostics := [] |}
  = ({| client := None |},
     {| resource.ConfigureDiagnostics :=
          [diag.NewErrorDiagnostic "Unexpected Resource Configure Type"
             "Expected *http.Client, got: *grpc.ClientConn. Please report this issue to the provider developers."] |}).
Proof.
  destruct (Resource_Configure_guards_provider_data {| client := None |}
              {| resource.ConfigureDiagnostics := [] |}) as [_ Hother].
  destruct (Hother (grpc_ClientConn_ptr (Some {| target := "localhost:7233" |})))
    as [Heq _].
  - discriminate.
  - reflexivity.
  - apply not_elem_of_nil.
  - rewrite Heq. reflexivity.
Defined.

(** Create of the namespace billing against a remote that would register it
    as ns-123: no call reaches the remote, and the identifier stored is the
    constant of the handler. *)
Lemma Create_billing_contradicts_spec :
  ¬ spec_Create "ns-123" Memory.billing [] Runs.create_billing
  ∧ remote_calls (snd Runs.create_billing) = []
  ∧ resource.State (fst Runs.create_billing)
    = Some (with_Id (types.StringValue "example-id") Memory.billing)
  ∧ NamespaceState (with_Id (types.StringValue "example-id") Memory.billing)
    = types.StringUnknown.
Proof.
  split; [|repeat split; reflexivity].
  intros [Hcall _]. vm_compute in Hcall. discriminate Hcall.
Qed.

Lemma Create_billing_run :
  Runs.create_billing
  = ({| resource.Diagnostics := [];
        resource.State := Some (with_Id (types.StringValue "example-id") Memory.billing) |},
     [LogEvent LevelTrace "created a resource" []]).
Proof.
  destruct (@Create_stores_plan_with_constant_id _ _ Memory.tfsdk
              {| client := Some Memory.registering_client |} Memory.background
              {| resource.CreatePlan := Some Memory.billing |} Memory.fresh []
              [] Memory.billing eq_refl eq_refl
              (with_Id (types.StringValue "example-id") Memory.billing) eq_refl)
    as [Heq _].
  unfold Runs.create_billing. rewrite Heq. reflexivity.
Defined.

(** Import of ns-123 from a remote that does not know it: the remote is not
    asked, no error is reported, and a state holding the identifier is
    created. *)
Lemma Import_absent_contradicts_spec :
  ¬ spec_Import_absent [] Runs.import_absent
  ∧ Runs.import_absent
    = ({| resource.Diagnostics := [];
          resource.State := Some (with_Id (types.StringValue "ns-123") Memory.zero) |},
       []).
Proof.
  split; [|reflexivity].
  intros [Hcall _]. vm_compute in Hcall. lia.
Qed.

(** Update against a remote that would refuse every request: the remote is
    not asked, so the Update does not fail; the state is replaced by the
    plan. *)
Example Update_refusing_remote_run :
  Runs.update_refused
  = ({| resource.Diagnostics := []; resource.State := Some Runs.described |}, []).
Proof. reflexivity. Qed.


(** An update whose plan does not decode. *)
Lemma Update_undecodable_plan_run :
  resource.State
    (fst (@NamespaceResourceImpl.Update _ _ Memory.tfsdk
            {| client := Some Memory.rejecting_client |} Memory.background
            {| resource.UpdatePlan := None;
               resource.UpdateState := Some Runs.registered |}
            (Runs.holding Runs.registered) []))
  = Some Runs.registered.
Proof.
  destruct (@Update_failure_keeps_state _ _ Memory.tfsdk
              {| client := Some Memory.rejecting_client |} Memory.background
              {| resource.UpdatePlan := None;
                 resource.UpdateState := Some Runs.registered |}
              (Runs.holding Runs.registered) [] eq_refl)
    as [Heq _].
  exact Heq.
Defined.

(** Update of the description against a remote that holds the namespace as
    ns-123 at failover version 7: the remote is not asked, and the
    identifier and the failover version of the new state are those of the
    plan, which are those of the prior local state. *)
Lemma Update_described_contradicts_spec :
  ¬ spec_Update_computed "ns-123" 7 [] Runs.update_described
  ∧ remote_calls (snd Runs.update_described) = []
  ∧ resource.State (fst Runs.update_described) = Some Runs.described
  ∧ Id Runs.described = Id Runs.registered
  ∧ FailoverVersion Runs.described = FailoverVersion Runs.registered.
Proof.
  split; [|repeat split; reflexivity].
  intros [Hcall _]. vm_compute in Hcall. lia.
Qed.

Lemma Update_described_run :
  Runs.update_described
  = ({| resource.Diagnostics := []; resource.State := Some Runs.described |}, []).
Proof.
  destruct (@Update_stores_plan _ _ Memory.tfsdk
              {| client := Some Memory.registering_client |} Memory.background
              {| resource.UpdatePlan := Some Runs.described;
                 resource.UpdateState := Some Runs.registered |}
              (Runs.holding Runs.registered) []
              [] Runs.described eq_refl eq_refl)
    as [Heq _].
  unfold Runs.update_described. rewrite Heq. reflexivity.
Defined.

(** Read of a stored namespace: the response holds it again, and the new
    state decodes to the identifier that was stored. *)
Lemma Read_registered_run :
  @NamespaceResourceImpl.Read _ _ Memory.tfsdk
    {| client := Some Memory.registering_client |} Memory.background
    {| resource.ReadState := Some Runs.registered |} (Runs.holding Runs.registered) []
  = (Runs.holding Runs.registered, [])
  ∧ Id (snd (Memory.get
               (resource.State
                  (fst (@NamespaceResourceImpl.Read _ _ Memory.tfsdk
                          {| client := Some Memory.registering_client |}
                          Memory.background
                          {| resource.ReadState := Some Runs.registered |}
                          (Runs.holding Runs.registered) [])))))
    = types.StringValue "example-id".
Proof.
  destruct (@Read_writes_back_prior_state _ _ Memory.tfsdk
              {| client := Some Memory.registering_client |} Memory.background
              {| resource.ReadState := Some Runs.registered |}
              (Runs.holding Runs.registered) []
              [] Runs.registered eq_refl eq_refl)
    as (Heq & _ & Hlaw).
  split.
  - rewrite Heq. reflexivity.
  - exact (f_equal Id (Hlaw (λ m s, eq_refl))).
Defined.


(** A configuration left null, resolved from the environment: the provider
    dials localhost:7233 and publishes the connection. *)
Example Configure_from_environment :
  @TemporalProviderImpl.Configure _
    (Memory.runtime
       (λ name, if decide (name = "TEMPORAL_HOST") then "localhost" else "7233")
       Memory.connect)
    {| version := "test" |} Memory.background
    {| provider.Config := {| Host := types.StringNull; Port := types.StringNull |} |}
    {| provider.Diagnostics := [];
       provider.DataSourceData := any_nil;
       provider.ResourceData := any_nil |} []
  = ({| provider.Diagnostics := [];
        provider.DataSourceData :=
          grpc_ClientConn_ptr (Some {| target := "localhost:7233" |});
        provider.ResourceData :=
          grpc_ClientConn_ptr (Some {| target := "localhost:7233" |}) |},
     [ LogEvent LevelInfo "Configuring Temporal client" [];
       LogEvent LevelDebug "Creating Temporal client"
         [("temporal_host", "localhost"); ("temporal_port", "7233")];
       DialEvent "localhost:7233";
       LogEvent LevelInfo "Configured Temporal client"
         [("temporal_host", "localhost"); ("temporal_port", "7233");
          ("success", "true")] ]).
Proof. reflexivity. Qed.

(** * Further properties of the code *)

(** ** Diagnostics, continued *)

Section DiagOrder.
Import diag.

(** A collection only grows at its end. *)
Lemma Append_prefix (new ds : Diagnostics) : ds `prefix_of` Append ds new.
Proof.
  revert ds. induction new as [|d new IH]; intros ds; simpl; [done|].
  etrans; [|apply IH]. unfold Contains. case_bool_decide; [done|].
  by apply prefix_app_r.
Qed.

Lemma HasError_prefix (ds ds' : Diagnostics) :
  ds `prefix_of` ds' → HasError ds = true → HasError ds' = true.
Proof.
  intros [k ->] He. unfold HasError in *. by rewrite existsb_app, He.
Qed.

Lemma HasError_Append_error (ds : Diagnostics) (d : Diagnostic) :
  is_error d = true → HasError (Append ds [d]) = true.
Proof.
  intros He. rewrite HasError_Append. unfold HasError at 2. simpl.
  by rewrite He, orb_true_r.
Qed.

Lemma elem_of_Append_single (ds : Diagnostics) (d : Diagnostic) :
  d ∈ Append ds [d].
Proof.
  simpl. unfold Contains. case_bool_decide; [done|].
  apply elem_of_app. right. by apply list_elem_of_singleton.
Qed.

(** Reporting the same diagnostic again changes nothing. *)
Lemma Append_again (ds : Diagnostics) (d : Diagnostic) :
  Append (Append ds [d]) [d] = Append ds [d].
Proof.
  pose proof (elem_of_Append_single ds d) as Hin.
  change (Append (Append ds [d]) [d])
    with (if Contains (Append ds [d]) d then Append ds [d] else Append ds [d] ++ [d]).
  unfold Contains. by rewrite bool_decide_eq_true_2.
Qed.

End DiagOrder.

(** ** The provider's Configure, every path *)

Section ProviderOutcomes.
Import provider TemporalProviderImpl.
Context `{Runtime C}.

#[local] Arguments diag.Append : simpl never.
#[local] Arguments diag.HasError : simpl never.

Ltac grows :=
  repeat first [ reflexivity | etrans; [|apply Append_prefix] ].

(** Every run of [Configure] either stops after its first log line, with an
    error among the diagnostics and the response data untouched, or dials
    the resolved host and port. *)
Lemma Configure_outcome
    (p : TemporalProvider) (ctx : Context) (req : ConfigureRequest C)
    (resp : ConfigureResponse) (w : World) :
  (∃ D, Configure p ctx req resp w
        = (with_Diagnostics D resp,
           w ++ [LogEvent LevelInfo "Configuring Temporal client" (fields ctx)])
        ∧ diag.HasError D = true
        ∧ Diagnostics resp `prefix_of` D)
  ∨ (∃ host port,
       diag.HasError (diag.Append (Diagnostics resp) (Config_Get (Config req)).1)
       = false
       ∧ types.IsUnknown (Host (Config_Get (Config req)).2) = false
       ∧ types.IsUnknown (Port (Config_Get (Config req)).2) = false
       ∧ host = spec_resolved (Host (Config_Get (Config req)).2)
                  (os_Getenv "TEMPORAL_HOST")
       ∧ port = spec_resolved (Port (Config_Get (Config req)).2)
                  (os_Getenv "TEMPORAL_PORT")
       ∧ host ≠ "" ∧ port ≠ ""
       ∧ match dial (host +:+ ":" +:+ port) with
         | inr err =>
             Configure p ctx req resp w
             = (with_Diagnostics
                  (diag.Append (Diagnostics resp) (Config_Get (Config req)).1
                   ++ [DialFailed err]) resp,
                w ++ dialling ctx host port)
         | inl conn =>
             Configure p ctx req resp w
             = ({| Diagnostics :=
                     diag.Append (Diagnostics resp) (Config_Get (Config req)).1;
                   DataSourceData := grpc_ClientConn_ptr (Some conn);
                   ResourceData := grpc_ClientConn_ptr (Some conn) |},
                w ++ dialling ctx host port ++ [configured_line ctx host port])
         end).
Proof.
  unfold Configure, diag.AddAttributeError, diag.AddError.
  fold UnknownHost UnknownPort MissingHost MissingPort.
  destruct (Config_Get (Config req)) as [ds config]. rewrite Info_first. simpl.
  destruct (diag.HasError (diag.Append (Diagnostics resp) ds)) eqn:Hok.
  { left. eexists. split; [reflexivity|]. split; [done|]. apply Append_prefix. }
  destruct (types.IsUnknown (Host config)) eqn:Hh;
    destruct (types.IsUnknown (Port config)) eqn:Hp; simpl.
  1: rewrite (HasError_Append_error _ UnknownPort eq_refl).
  2: rewrite (HasError_Append_error _ UnknownHost eq_refl).
  3: rewrite (HasError_Append_error _ UnknownPort eq_refl).
  1-3: left; eexists; (split; [reflexivity|]); split;
       [by apply HasError_Append_error | grows].
  rewrite Hok.
  assert (Hhost : (if negb (types.IsNull (Host config))
                   then types.ValueString (Host config)
                   else os_Getenv "TEMPORAL_HOST")
                  = spec_resolved (Host config) (os_Getenv "TEMPORAL_HOST")).
  { by destruct (Host config). }
  assert (Hport : (if negb (types.IsNull (Port config))
                   then types.ValueString (Port config)
                   else os_Getenv "TEMPORAL_PORT")
                  = spec_resolved (Port config) (os_Getenv "TEMPORAL_PORT")).
  { by destruct (Port config). }
  rewrite Hhost, Hport. clear Hhost Hport.
  set (host := spec_resolved (Host config) (os_Getenv "TEMPORAL_HOST")).
  set (port := spec_resolved (Port config) (os_Getenv "TEMPORAL_PORT")).
  destruct (decide (host = "")) as [Eh|Eh];
    destruct (decide (port = "")) as [Ep|Ep];
    rewrite ?(bool_decide_eq_true_2 _ Eh), ?(bool_decide_eq_false_2 _ Eh),
            ?(bool_decide_eq_true_2 _ Ep), ?(bool_decide_eq_false_2 _ Ep);
    simpl.
  1: rewrite (HasError_Append_error _ MissingPort eq_refl).
  2: rewrite (HasError_Append_error _ MissingHost eq_refl).
  3: rewrite (HasError_Append_error _ MissingPort eq_refl).
  1-3: left; eexists; (split; [reflexivity|]); split;
       [by apply HasError_Append_error | grows].
  rewrite Hok. right. exists host, port.
  repeat (split; [done|]).
  unfold dialling, configured_line, tflog.Info, tflog.Debug, tflog.log.
  destruct (dial (host +:+ ":" +:+ port)) as [conn|err]; simpl.
  - rewrite app_nil_r, <- !app_assoc. reflexivity.
  - change (diag.NewErrorDiagnostic _ _) with (DialFailed err).
    rewrite (Append_error_fresh _ (DialFailed err) Hok eq_refl).
    rewrite app_nil_r, <- !app_assoc. reflexivity.
Qed.

End ProviderOutcomes.

Section ProviderPaths.
Import provider TemporalProviderImpl.
Context `{Runtime C}.

#[local] Arguments diag.Append : simpl never.
#[local] Arguments diag.HasError : simpl never.

(** X1. When the configuration does not decode without error (or the
    response already holds an error), [Configure] returns right after its
    first log line: it adds the diagnostics of the decoding and nothing
    else, checks neither unknown nor missing values, and does not dial. *)
Theorem Configure_stops_on_decode_error
    (p : TemporalProvider) (ctx : Context) (req : ConfigureRequest C)
    (resp : ConfigureResponse) (w : World) :
  diag.HasError (diag.Append (Diagnostics resp) (Config_Get (Config req)).1) = true →
  Configure p ctx req resp w
  = (with_Diagnostics (diag.Append (Diagnostics resp) (Config_Get (Config req)).1) resp,
     w ++ [LogEvent LevelInfo "Configuring Temporal client" (fields ctx)]).
Proof.
  intros Herr. unfold Configure.
  destruct (Config_Get (Config req)) as [ds config]. rewrite Info_first.
  simpl in *. by rewrite Herr.
Qed.

(** With host and port resolved to non-empty values, [Configure] dials. *)
Lemma Configure_dials
    (p : TemporalProvider) (ctx : Context) (req : ConfigureRequest C)
    (resp : ConfigureResponse) (w : World) (host port : string) :
  diag.HasError (diag.Append (Diagnostics resp) (Config_Get (Config req)).1) = false →
  types.IsUnknown (Host (Config_Get (Config req)).2) = false →
  types.IsUnknown (Port (Config_Get (Config req)).2) = false →
  host = spec_resolved (Host (Config_Get (Config req)).2) (os_Getenv "TEMPORAL_HOST") →
  port = spec_resolved (Port (Config_Get (Config req)).2) (os_Getenv "TEMPORAL_PORT") →
  host ≠ "" → port ≠ "" →
  Configure p ctx req resp w
  = match dial (host +:+ ":" +:+ port) with
    | inr err =>
        (with_Diagnostics
           (diag.Append (Diagnostics resp) (Config_Get (Config req)).1
            ++ [DialFailed err]) resp,
         w ++ dialling ctx host port)
    | inl conn =>
        ({| Diagnostics := diag.Append (Diagnostics resp) (Config_Get (Config req)).1;
            DataSourceData := grpc_ClientConn_ptr (Some conn);
            ResourceData := grpc_ClientConn_ptr (Some conn) |},
         w ++ dialling ctx host port ++ [configured_line ctx host port])
    end.
Proof.
  intros Hok Hh Hp Hhost Hport Eh Ep.
  unfold Configure, diag.AddAttributeError, diag.AddError.
  fold UnknownHost UnknownPort MissingHost MissingPort.
  destruct (Config_Get (Config req)) as [ds config]. rewrite Info_first.
  simpl in *. rewrite Hok, Hh, Hp. simpl. rewrite Hok.
  assert (Hhost' : (if negb (types.IsNull (Host config))
                    then types.ValueString (Host config)
                    else os_Getenv "TEMPORAL_HOST") = host).
  { subst host. by destruct (Host config). }
  assert (Hport' : (if negb (types.IsNull (Port config))
                    then types.ValueString (Port config)
                    else os_Getenv "TEMPORAL_PORT") = port).
  { subst port. by destruct (Port config). }
  rewrite Hhost', Hport'.
  rewrite (bool_decide_eq_false_2 _ Eh), (bool_decide_eq_false_2 _ Ep).
  simpl. rewrite Hok.
  unfold dialling, configured_line, tflog.Info, tflog.Debug, tflog.log.
  destruct (dial (host +:+ ":" +:+ port)) as [conn|err]; simpl.
  - rewrite app_nil_r, <- !app_assoc. reflexivity.
  - change (diag.NewErrorDiagnostic _ _) with (DialFailed err).
    rewrite (Append_error_fresh _ (DialFailed err) Hok eq_refl).
    rewrite app_nil_r, <- !app_assoc. reflexivity.
Qed.

(** X2. When host and port are resolved to non-empty values and the dial
    fails, [Configure] adds one error that is not attribute-scoped and
    quotes the dial error, publishes no client, and does not log the
    configured line: its events are the two log lines and the dial. *)
Theorem Configure_reports_dial_failure
    (p : TemporalProvider) (ctx : Context) (req : ConfigureRequest C)
    (resp : ConfigureResponse) (w : World) (host port err : string) :
  diag.HasError (diag.Append (Diagnostics resp) (Config_Get (Config req)).1) = false →
  types.IsUnknown (Host (Config_Get (Config req)).2) = false →
  types.IsUnknown (Port (Config_Get (Config req)).2) = false →
  host = spec_resolved (Host (Config_Get (Config req)).2) (os_Getenv "TEMPORAL_HOST") →
  port = spec_resolved (Port (Config_Get (Config req)).2) (os_Getenv "TEMPORAL_PORT") →
  host ≠ "" → port ≠ "" →
  dial (host +:+ ":" +:+ port) = inr err →
  Configure p ctx req resp w
  = (with_Diagnostics
       (diag.Append (Diagnostics resp) (Config_Get (Config req)).1 ++ [DialFailed err])
       resp,
     w ++ dialling ctx host port)
  ∧ diag.is_error (DialFailed err) = true
  ∧ diag.attribute (DialFailed err) = None
  ∧ diag.detail (DialFailed err)
    = "An unexpected error occurred when creating the Temporal API client. If the error is not clear, please contact the provider developers."
      +:+ LF +:+ LF +:+ "Temporal Client Error: " +:+ err.
Proof.
  intros Hok Hh Hp Hhost Hport Eh Ep Hdial.
  rewrite (Configure_dials p ctx req resp w host port Hok Hh Hp Hhost Hport Eh Ep).
  by rewrite Hdial.
Qed.

(** X3. When host and port are resolved to non-empty values and the dial
    succeeds, [Configure] publishes the one connection both as data-source
    data and as resource data, adds no diagnostic, and logs, in order: the
    configuring line, the creating line with the fields temporal_host and
    temporal_port, and after the dial the configured line with the same
    fields and success. *)
Theorem Configure_publishes_connection
    (p : TemporalProvider) (ctx : Context) (req : ConfigureRequest C)
    (resp : ConfigureResponse) (w : World) (host port : string)
    (conn : grpc_ClientConn) :
  diag.HasError (diag.Append (Diagnostics resp) (Config_Get (Config req)).1) = false →
  types.IsUnknown (Host (Config_Get (Config req)).2) = false →
  types.IsUnknown (Port (Config_Get (Config req)).2) = false →
  host = spec_resolved (Host (Config_Get (Config req)).2) (os_Getenv "TEMPORAL_HOST") →
  port = spec_resolved (Port (Config_Get (Config req)).2) (os_Getenv "TEMPORAL_PORT") →
  host ≠ "" → port ≠ "" →
  dial (host +:+ ":" +:+ port) = inl conn →
  Configure p ctx req resp w
  = ({| Diagnostics := diag.Append (Diagnostics resp) (Config_Get (Config req)).1;
        DataSourceData := grpc_ClientConn_ptr (Some conn);
        ResourceData := grpc_ClientConn_ptr (Some conn) |},
     w ++ [ LogEvent LevelInfo "Configuring Temporal client" (fields ctx);
            LogEvent LevelDebug "Creating Temporal client"
              (fields ctx ++ [("temporal_host", host); ("temporal_port", port)]);
            DialEvent (host +:+ ":" +:+ port);
            LogEvent LevelInfo "Configured Temporal client"
              (fields ctx ++ [("temporal_host", host); ("temporal_port", port);
                              ("success", "true")]) ]).
Proof.
  intros Hok Hh Hp Hhost Hport Eh Ep Hdial.
  rewrite (Configure_dials p ctx req resp w host port Hok Hh Hp Hhost Hport Eh Ep).
  by rewrite Hdial.
Qed.

(** X4. A client is published exactly when [Configure] ends without error.
    Whatever the inputs: either the diagnostics on exit hold an error and
    the data-source and resource data are those on entry; or they hold no
    error and both data are one connection, which the dial of an endpoint
    recorded among the events returned. *)
Theorem Configure_publishes_iff_no_error
    (p : TemporalProvider) (ctx : Context) (req : ConfigureRequest C)
    (resp : ConfigureResponse) (w : World) :
  (diag.HasError (Diagnostics (Configure p ctx req resp w).1) = true
   ∧ DataSourceData (Configure p ctx req resp w).1 = DataSourceData resp
   ∧ ResourceData (Configure p ctx req resp w).1 = ResourceData resp)
  ∨ (diag.HasError (Diagnostics (Configure p ctx req resp w).1) = false
     ∧ ∃ endpoint conn,
         dial endpoint = inl conn
         ∧ DialEvent endpoint ∈ (Configure p ctx req resp w).2
         ∧ DataSourceData (Configure p ctx req resp w).1
           = grpc_ClientConn_ptr (Some conn)
         ∧ ResourceData (Configure p ctx req resp w).1
           = grpc_ClientConn_ptr (Some conn)).
Proof.
  destruct (Configure_outcome p ctx req resp w)
    as [(D & -> & HD & _) | (host & port & Hok & _ & _ & _ & _ & _ & _ & Hrun)].
  - left. by simpl.
  - destruct (dial (host +:+ ":" +:+ port)) as [conn|err] eqn:Hdial;
      rewrite Hrun; simpl.
    + right. split; [done|]. exists (host +:+ ":" +:+ port), conn.
      split; [done|]. split; [|done].
      apply elem_of_app. right. unfold dialling. simpl. set_solver.
    + left. split; [|done]. by rewrite HasError_snoc, orb_true_r.
Qed.

(** X5. [Configure] only adds to what it is given.  The diagnostics on
    entry are a prefix of those on exit, and the events on entry a prefix
    of those on exit; the first event added is always the configuring log
    line; at most one dial is made, and no HTTP request. *)
Theorem Configure_only_adds
    (p : TemporalProvider) (ctx : Context) (req : ConfigureRequest C)
    (resp : ConfigureResponse) (w : World) :
  Diagnostics resp `prefix_of` Diagnostics (Configure p ctx req resp w).1
  ∧ ∃ rest,
      (Configure p ctx req resp w).2
      = w ++ LogEvent LevelInfo "Configuring Temporal client" (fields ctx) :: rest
      ∧ length (dials rest) ≤ 1
      ∧ remote_calls rest = [].
Proof.
  destruct (Configure_outcome p ctx req resp w)
    as [(D & -> & HD & Hpre) | (host & port & Hok & _ & _ & _ & _ & _ & _ & Hrun)].
  - split; [done|]. exists []. simpl. split_and!; first [done | lia].
  - destruct (dial (host +:+ ":" +:+ port)) as [conn|err];
      rewrite Hrun; simpl;
      (split; [|eexists; split; [reflexivity|simpl; split; first [done | lia]]]).
    + apply Append_prefix.
    + etrans; [apply Append_prefix|]. by apply prefix_app_r.
Qed.

End ProviderPaths.

(** The provider schema requires host and port, and nothing else. *)
Lemma gives_required_iff (p : TemporalProvider) (c : temporalProviderModel) :
  gives_required (TemporalProviderImpl.Schema p) c
  ↔ types.IsNull (Host c) = false ∧ types.IsNull (Port c) = false.
Proof.
  split.
  - intros Hreq. split.
    + destruct (Hreq "host" {| provider.Required := true |}) as (v & Hv & Hn);
        [by vm_compute | done |].
      by injection Hv as <-.
    + destruct (Hreq "port" {| provider.Required := true |}) as (v & Hv & Hn);
        [by vm_compute | done |].
      by injection Hv as <-.
  - intros [Hh Hp] name a Hlook _. unfold TemporalProviderImpl.Schema in Hlook.
    simpl in Hlook.
    apply lookup_insert_Some in Hlook as [[<- _] | [_ Hlook]].
    { by exists (Host c). }
    apply lookup_insert_Some in Hlook as [[<- _] | [_ Hlook]].
    { by exists (Port c). }
    by rewrite lookup_empty in Hlook.
Qed.

(** X6. The schema marks host and port as required, so the fallback to the
    environment is never taken for a configuration that the schema admits:
    when the configuration gives every required attribute a value,
    [Configure] has the same outcome under every environment. *)
Theorem Configure_ignores_environment
    (C : Type) (get : C → diag.Diagnostics * temporalProviderModel)
    (d : string → grpc_ClientConn + string) (env1 env2 : string → string)
    (p : TemporalProvider) (ctx : Context) (req : provider.ConfigureRequest C)
    (resp : provider.ConfigureResponse) (w : World) :
  gives_required (TemporalProviderImpl.Schema p) (get (provider.Config req)).2 →
  @TemporalProviderImpl.Configure C
    {| Config_Get := get; os_Getenv := env1; dial := d |} p ctx req resp w
  = @TemporalProviderImpl.Configure C
      {| Config_Get := get; os_Getenv := env2; dial := d |} p ctx req resp w.
Proof.
  intros Hreq. apply gives_required_iff in Hreq as [Hh Hp].
  unfold TemporalProviderImpl.Configure, grpc.Dial.
  cbn [Config_Get os_Getenv dial].
  destruct (get (provider.Config req)) as [ds config]. cbn [snd] in Hh, Hp.
  by rewrite Hh, Hp.
Qed.

(** ** The namespace resource, continued *)

(** X7. Configuring a resource twice with the same provider data is the
    same as configuring it once, for every kind of provider data: no data,
    a client (which replaces whatever client was held), or a value of a
    wrong type (whose error is reported once). *)
Theorem Resource_Configure_idempotent
    (r : NamespaceResource) (req : resource.ConfigureRequest)
    (resp : resource.ConfigureResponse) :
  NamespaceResourceImpl.Configure
    (NamespaceResourceImpl.Configure r req resp).1 req
    (NamespaceResourceImpl.Configure r req resp).2
  = NamespaceResourceImpl.Configure r req resp
  ∧ ∀ c, NamespaceResourceImpl.Configure r
           {| resource.ProviderData := http_Client_ptr c |} resp
         = ({| client := c |}, resp).
Proof.
  destruct req as [v]. unfold NamespaceResourceImpl.Configure, diag.AddError.
  cbn [resource.ProviderData].
  split; [|done].
  destruct v; cbn [fst snd resource.ProviderData resource.ConfigureDiagnostics];
    try done; by rewrite Append_again.
Qed.

Section ResourceEdges.
Import resource NamespaceResourceImpl.
Context `{Tfsdk Pl St}.

#[local] Arguments diag.Append : simpl never.
#[local] Arguments diag.HasError : simpl never.

(** X8. No handler of the resource ever reaches the remote system, on any
    input: the events of Read, Update, Delete and ImportState are those on
    entry, Create adds at most its trace line, and none holds an HTTP
    request.  The outcome of every handler is the same for every receiver,
    whatever client it holds. *)
Theorem Handlers_never_use_client
    (r r' : NamespaceResource) (ctx : Context) (resp : Response St) (w : World)
    (creq : CreateRequest Pl) (rreq : ReadRequest St)
    (ureq : UpdateRequest Pl St) (dreq : DeleteRequest St)
    (ireq : ImportStateRequest) :
  ((Create r ctx creq resp w).2 = w
   ∨ (Create r ctx creq resp w).2
     = w ++ [LogEvent LevelTrace "created a resource" (fields ctx)])
  ∧ (Read r ctx rreq resp w).2 = w
  ∧ (Update r ctx ureq resp w).2 = w
  ∧ (Delete r ctx dreq resp w).2 = w
  ∧ (ImportState r ctx ireq resp w).2 = w
  ∧ remote_calls (Create r ctx creq resp w).2 = remote_calls w
  ∧ Create r' ctx creq resp w = Create r ctx creq resp w
  ∧ Read r' ctx rreq resp w = Read r ctx rreq resp w
  ∧ Update r' ctx ureq resp w = Update r ctx ureq resp w
  ∧ Delete r' ctx dreq resp w = Delete r ctx dreq resp w
  ∧ ImportState r' ctx ireq resp w = ImportState r ctx ireq resp w.
Proof.
  unfold Create, Read, Update, Delete, ImportState, tflog.Trace, tflog.log.
  destruct (Plan_Get (CreatePlan creq)) as [d1 m1].
  destruct (State_Get (ReadState rreq)) as [d2 m2].
  destruct (Plan_Get (UpdatePlan ureq)) as [d3 m3].
  destruct (State_Get (DeleteState dreq)) as [d4 m4].
  simpl.
  destruct (State_Set (with_Id (types.StringValue "example-id") m1) (State resp))
    as [e1 s1].
  destruct (State_Set m2 (State resp)) as [e2 s2].
  destruct (State_Set m3 (State resp)) as [e3 s3].
  destruct (diag.HasError (diag.Append (Diagnostics resp) d1));
    destruct (diag.HasError (diag.Append (Diagnostics resp) d2));
    destruct (diag.HasError (diag.Append (Diagnostics resp) d3));
    destruct (diag.HasError (diag.Append (Diagnostics resp) d4));
    simpl; rewrite ?app_nil_r; split_and!; auto;
    unfold remote_calls; rewrite List.filter_app; simpl; by rewrite app_nil_r.
Qed.

(** X9. When the plan does not decode without error, Create returns with
    the state of the response as it was on entry, the error among the
    diagnostics, and no effect: it assigns no identifier and writes no log
    line. *)
Theorem Create_failure_keeps_state
    (r : NamespaceResource) (ctx : Context) (req : CreateRequest Pl)
    (resp : Response St) (w : World) :
  diag.HasError (diag.Append (Diagnostics resp) (Plan_Get (CreatePlan req)).1) = true →
  Create r ctx req resp w
  = ({| Diagnostics := diag.Append (Diagnostics resp) (Plan_Get (CreatePlan req)).1;
        State := State resp |}, w).
Proof.
  intros Herr. unfold Create.
  destruct (Plan_Get (CreatePlan req)) as [d data]. simpl in *. by rewrite Herr.
Qed.

(** X10. When the prior state does not decode without error, Read returns
    with the state of the response as it was on entry and the error among
    the diagnostics: it writes nothing back. *)
Theorem Read_failure_keeps_state
    (r : NamespaceResource) (ctx : Context) (req : ReadRequest St)
    (resp : Response St) (w : World) :
  diag.HasError (diag.Append (Diagnostics resp) (State_Get (ReadState req)).1) = true →
  Read r ctx req resp w
  = ({| Diagnostics := diag.Append (Diagnostics resp) (State_Get (ReadState req)).1;
        State := State resp |}, w).
Proof.
  intros Herr. unfold Read.
  destruct (State_Get (ReadState req)) as [d data]. simpl in *. by rewrite Herr.
Qed.

(** X11. Delete does one thing on every input: it appends the diagnostics
    of decoding the prior state.  Whether or not that decoding failed, it
    leaves the state of the response untouched (it removes nothing itself)
    and has no effect. *)
Theorem Delete_only_decodes
    (r : NamespaceResource) (ctx : Context) (req : DeleteRequest St)
    (resp : Response St) (w : World) :
  Delete r ctx req resp w
  = ({| Diagnostics := diag.Append (Diagnostics resp) (State_Get (DeleteState req)).1;
        State := State resp |}, w).
Proof.
  unfold Delete. destruct (State_Get (DeleteState req)) as [d data]. simpl.
  by destruct (diag.HasError _).
Qed.

(** X12. The handlers only add diagnostics: those on entry are a prefix of
    those on exit, for each of Create, Read, Update, Delete and
    ImportState; so an error on entry is still there on exit. *)
Theorem Handlers_keep_diagnostics
    (r : NamespaceResource) (ctx : Context) (resp : Response St) (w : World)
    (creq : CreateRequest Pl) (rreq : ReadRequest St)
    (ureq : UpdateRequest Pl St) (dreq : DeleteRequest St)
    (ireq : ImportStateRequest) :
  Diagnostics resp `prefix_of` Diagnostics (Create r ctx creq resp w).1
  ∧ Diagnostics resp `prefix_of` Diagnostics (Read r ctx rreq resp w).1
  ∧ Diagnostics resp `prefix_of` Diagnostics (Update r ctx ureq resp w).1
  ∧ Diagnostics resp `prefix_of` Diagnostics (Delete r ctx dreq resp w).1
  ∧ Diagnostics resp `prefix_of` Diagnostics (ImportState r ctx ireq resp w).1.
Proof.
  unfold Create, Read, Update, Delete, ImportState, ImportStatePassthroughID.
  destruct (Plan_Get (CreatePlan creq)) as [d1 m1].
  destruct (State_Get (ReadState rreq)) as [d2 m2].
  destruct (Plan_Get (UpdatePlan ureq)) as [d3 m3].
  destruct (State_Get (DeleteState dreq)) as [d4 m4].
  simpl.
  destruct (State_Set (with_Id (types.StringValue "example-id") m1) (State resp))
    as [e1 s1].
  destruct (State_Set m2 (State resp)) as [e2 s2].
  destruct (State_Set m3 (State resp)) as [e3 s3].
  destruct (State_SetAttribute (path.Root "id") (ID ireq) (State resp)) as [e5 s5].
  destruct (diag.HasError (diag.Append (Diagnostics resp) d1));
    destruct (diag.HasError (diag.Append (Diagnostics resp) d2));
    destruct (diag.HasError (diag.Append (Diagnostics resp) d3));
    destruct (diag.HasError (diag.Append (Diagnostics resp) d4));
    simpl; split_and!;
    repeat first [ reflexivity | etrans; [|apply Append_prefix] ].
Qed.

(** X13. Every namespace gets the same identifier.  Under a framework that
    gives back what was stored, the identifier read back from the state
    after a Create whose plan decodes is "example-id", whatever the plan,
    the receiver and the response; so two Creates of different namespaces
    store equal identifiers. *)
Theorem Create_identifiers_coincide
    (r1 r2 : NamespaceResource) (ctx1 ctx2 : Context)
    (req1 req2 : CreateRequest Pl) (resp1 resp2 : Response St) (w1 w2 : World) :
  (∀ m s, (State_Get (State_Set m s).2).2 = m) →
  diag.HasError (diag.Append (Diagnostics resp1) (Plan_Get (CreatePlan req1)).1) = false →
  diag.HasError (diag.Append (Diagnostics resp2) (Plan_Get (CreatePlan req2)).1) = false →
  Id (State_Get (State (Create r1 ctx1 req1 resp1 w1).1)).2
  = types.StringValue "example-id"
  ∧ Id (State_Get (State (Create r1 ctx1 req1 resp1 w1).1)).2
    = Id (State_Get (State (Create r2 ctx2 req2 resp2 w2).1)).2.
Proof.
  intros Hlaw Hok1 Hok2.
  assert (∀ r ctx (req : CreateRequest Pl) resp w,
            diag.HasError (diag.Append (Diagnostics resp) (Plan_Get (CreatePlan req)).1)
            = false →
            Id (State_Get (State (Create r ctx req resp w).1)).2
            = types.StringValue "example-id") as Hone.
  { intros r ctx req resp w Hok. unfold Create.
    destruct (Plan_Get (CreatePlan req)) as [d data]. simpl in *. rewrite Hok.
    pose proof (Hlaw (with_Id (types.StringValue "example-id") data) (State resp))
      as Hback.
    destruct (State_Set _ _) as [e st]. simpl in *. by rewrite Hback. }
  split; [by apply Hone|]. by rewrite !Hone.
Qed.

End ResourceEdges.

(** ** Names and wiring *)

Lemma append_length (a s : string) :
  String.length (a +:+ s) = String.length a + String.length s.
Proof. induction a as [|c a IH]; simpl; [done|]. by rewrite IH. Qed.

Lemma append_cancel_r (s a b : string) : a +:+ s = b +:+ s → a = b.
Proof.
  revert b. induction a as [|c a IH]; intros [|c' b] Heq; simpl in *.
  - done.
  - apply (f_equal String.length) in Heq.
    rewrite ?append_length in Heq. simpl in Heq.
    rewrite ?append_length in Heq. lia.
  - apply (f_equal String.length) in Heq.
    rewrite ?append_length in Heq. simpl in Heq.
    rewrite ?append_length in Heq. lia.
  - injection Heq as -> Heq. f_equal. by apply IH.
Qed.

(** X14. The type name of the resource is the provider's type name followed
    by "_namespace": under this provider, of any version, the resource is
    "temporal_namespace", and the provider reports the version it was
    constructed with.  Different provider type names never give the same
    resource type name. *)
Theorem Metadata_names_resource (version : string) (r : NamespaceResource) :
  resource.TypeName
    (NamespaceResourceImpl.Metadata r
       {| resource.ProviderTypeName :=
            provider.TypeName (TemporalProviderImpl.Metadata (New version ())) |})
  = "temporal_namespace"
  ∧ provider.Version (TemporalProviderImpl.Metadata (New version ())) = version
  ∧ ∀ n1 n2 : string,
      n1 ≠ n2 →
      resource.TypeName
        (NamespaceResourceImpl.Metadata r {| resource.ProviderTypeName := n1 |})
      ≠ resource.TypeName
          (NamespaceResourceImpl.Metadata r {| resource.ProviderTypeName := n2 |}).
Proof.
  split; [done|]. split; [done|].
  intros n1 n2 Hne Heq. apply Hne. simpl in Heq.
  by apply (append_cancel_r "_namespace").
Qed.

Section Wiring.
Import provider TemporalProviderImpl.
Context `{Runtime C}.

(** X15. The connection that the provider publishes is never accepted by
    the resource.  Whenever the provider's [Configure] ends without error,
    every resource that the provider registers, configured with the
    resource data of that response, reports the unexpected-type error for
    a [*grpc.ClientConn] and is left without a client. *)
Theorem Published_connection_is_rejected
    (version : string) (ctx : Context) (req : ConfigureRequest C)
    (resp : ConfigureResponse) (w : World) :
  diag.HasError (Diagnostics (Configure (New version ()) ctx req resp w).1) = false →
  ∀ mk, mk ∈ Resources (New version ()) →
    NamespaceResourceImpl.Configure (mk ())
      {| resource.ProviderData :=
           ResourceData (Configure (New version ()) ctx req resp w).1 |}
      {| resource.ConfigureDiagnostics := [] |}
    = ({| client := None |},
       {| resource.ConfigureDiagnostics :=
            [diag.NewErrorDiagnostic "Unexpected Resource Configure Type"
               "Expected *http.Client, got: *grpc.ClientConn. Please report this issue to the provider developers."] |}).
Proof.
  intros Hok mk Hmk. apply list_elem_of_singleton in Hmk as ->.
  destruct (Configure_publishes_iff_no_error (New version ()) ctx req resp w)
    as [(Herr & _) | (_ & endpoint & conn & _ & _ & _ & ->)].
  - by rewrite Herr in Hok.
  - reflexivity.
Qed.

End Wiring.

(** ** Runs of the further properties *)

(** A configuration that does not decode. *)
Lemma Configure_undecodable_run :
  @TemporalProviderImpl.Configure _ Cases.undecodable {| version := "test" |}
    Memory.background {| provider.Config := () |} Cases.unset []
  = ({| provider.Diagnostics := [Memory.ConversionError];
        provider.DataSourceData := any_nil;
        provider.ResourceData := any_nil |},
     [LogEvent LevelInfo "Configuring Temporal client" []]).
Proof.
  rewrite (@Configure_stops_on_decode_error _ Cases.undecodable
             {| version := "test" |} Memory.background
             {| provider.Config := () |} Cases.unset [] eq_refl).
  reflexivity.
Defined.

(** localhost:7233 configured, and nothing listening there. *)
Lemma Configure_unreachable_run :
  @TemporalProviderImpl.Configure _ Cases.unreachable {| version := "test" |}
    Memory.background {| provider.Config := Cases.local_config |} Cases.unset []
  = ({| provider.Diagnostics := [TemporalProviderImpl.DialFailed "connection refused"];
        provider.DataSourceData := any_nil;
        provider.ResourceData := any_nil |},
     [ LogEvent LevelInfo "Configuring Temporal client" [];
       LogEvent LevelDebug "Creating Temporal client"
         [("temporal_host", "localhost"); ("temporal_port", "7233")];
       DialEvent "localhost:7233" ]).
Proof.
  destruct (@Configure_reports_dial_failure _ Cases.unreachable
              {| version := "test" |} Memory.background
              {| provider.Config := Cases.local_config |} Cases.unset []
              "localhost" "7233" "connection refused"
              eq_refl eq_refl eq_refl eq_refl eq_refl)
    as [Heq _]; [discriminate | discriminate | reflexivity |].
  rewrite Heq. reflexivity.
Defined.

(** A null configuration resolved from the environment, the server up. *)
Lemma Configure_local_run :
  provider.ResourceData
    (@TemporalProviderImpl.Configure _
       (Memory.runtime Cases.local_env Memory.connect) {| version := "test" |}
       Memory.background {| provider.Config := Cases.null_config |} Cases.unset []).1
  = grpc_ClientConn_ptr (Some {| target := "localhost:7233" |}).
Proof.
  rewrite (@Configure_publishes_connection _
             (Memory.runtime Cases.local_env Memory.connect)
             {| version := "test" |} Memory.background
             {| provider.Config := Cases.null_config |} Cases.unset []
             "localhost" "7233" {| target := "localhost:7233" |}
             eq_refl eq_refl eq_refl eq_refl eq_refl
             ltac:(discriminate) ltac:(discriminate) eq_refl).
  reflexivity.
Defined.

(** localhost:7233 configured: an environment that names another host
    changes nothing. *)
Lemma Configure_other_environment_run :
  @TemporalProviderImpl.Configure _
    (Memory.runtime (λ _, "elsewhere") Memory.connect) {| version := "test" |}
    Memory.background {| provider.Config := Cases.local_config |} Cases.unset []
  = @TemporalProviderImpl.Configure _
      (Memory.runtime Memory.no_env Memory.connect) {| version := "test" |}
      Memory.background {| provider.Config := Cases.local_config |} Cases.unset [].
Proof.
  apply (Configure_ignores_environment temporalProviderModel (λ c, ([], c))
           Memory.connect (λ _, "elsewhere") Memory.no_env
           {| version := "test" |} Memory.background
           {| provider.Config := Cases.local_config |} Cases.unset []).
  apply gives_required_iff. split; reflexivity.
Defined.

(** Create from a null plan. *)
Lemma Create_null_plan_run :
  @NamespaceResourceImpl.Create _ _ Memory.tfsdk (NewNamespaceResource ())
    Memory.background {| resource.CreatePlan := None |} Memory.fresh []
  = ({| resource.Diagnostics := [Memory.ConversionError]; resource.State := None |},
     []).
Proof.
  rewrite (@Create_failure_keeps_state _ _ Memory.tfsdk (NewNamespaceResource ())
             Memory.background {| resource.CreatePlan := None |} Memory.fresh []
             eq_refl).
  reflexivity.
Defined.

(** Read of a null prior state, the response holding a stored namespace. *)
Lemma Read_null_state_run :
  @NamespaceResourceImpl.Read _ _ Memory.tfsdk (NewNamespaceResource ())
    Memory.background {| resource.ReadState := None |}
    (Runs.holding Runs.registered) []
  = ({| resource.Diagnostics := [Memory.ConversionError];
        resource.State := Some Runs.registered |},
     []).
Proof.
  rewrite (@Read_failure_keeps_state _ _ Memory.tfsdk (NewNamespaceResource ())
             Memory.background {| resource.ReadState := None |}
             (Runs.holding Runs.registered) [] eq_refl).
  reflexivity.
Defined.

(** The namespaces billing and payments get one identifier. *)
Lemma Create_billing_and_payments_run :
  Id (Memory.get
        (resource.State
           (@NamespaceResourceImpl.Create _ _ Memory.tfsdk
              {| client := Some Memory.registering_client |} Memory.background
              {| resource.CreatePlan := Some Memory.billing |} Memory.fresh []).1)).2
  = Id (Memory.get
          (resource.State
             (@NamespaceResourceImpl.Create _ _ Memory.tfsdk
                {| client := Some Memory.not_found_client |} Memory.background
                {| resource.CreatePlan := Some Cases.payments |}
                (Runs.holding Runs.registered) []).1)).2.
Proof.
  exact (proj2
           (@Create_identifiers_coincide _ _ Memory.tfsdk
              {| client := Some Memory.registering_client |}
              {| client := Some Memory.not_found_client |}
              Memory.background Memory.background
              {| resource.CreatePlan := Some Memory.billing |}
              {| resource.CreatePlan := Some Cases.payments |}
              Memory.fresh (Runs.holding Runs.registered) [] []
              (λ m s, eq_refl) eq_refl eq_refl)).
Defined.

(** The same resource under a provider of another name. *)
Lemma Metadata_other_provider_run :
  resource.TypeName
    (NamespaceResourceImpl.Metadata (NewNamespaceResource ())
       {| resource.ProviderTypeName := "temporal" |})
  ≠ resource.TypeName
      (NamespaceResourceImpl.Metadata (NewNamespaceResource ())
         {| resource.ProviderTypeName := "cadence" |}).
Proof.
  destruct (Metadata_names_resource "1.0.0" (NewNamespaceResource ()))
    as (_ & _ & Hinj).
  apply Hinj. discriminate.
Defined.

(** The provider configured from the environment, then its resource. *)
Lemma Published_connection_run :
  NamespaceResourceImpl.Configure (NewNamespaceResource ())
    {| resource.ProviderData :=
         provider.ResourceData
           (@TemporalProviderImpl.Configure _
              (Memory.runtime Cases.local_env Memory.connect) (New "1.0.0" ())
              Memory.background {| provider.Config := Cases.null_config |}
              Cases.unset []).1 |}
    {| resource.ConfigureDiagnostics := [] |}
  = ({| client := None |},
     {| resource.ConfigureDiagnostics :=
          [diag.NewErrorDiagnostic "Unexpected Resource Configure Type"
             "Expected *http.Client, got: *grpc.ClientConn. Please report this issue to the provider developers."] |}).
Proof.
  apply (@Published_connection_is_rejected _
           (Memory.runtime Cases.local_env Memory.connect) "1.0.0"
           Memory.background {| provider.Config := Cases.null_config |}
           Cases.unset [] eq_refl NewNamespaceResource).
  apply list_elem_of_singleton. reflexivity.
Defined.
